(** * Custom Page Size for Google Docs (with KDP presets)

    A shallow embedding of [custom-page-size.js]: the two size tables, the
    server functions [applyPageSettings], [applyCustomPageSize],
    [applyMargins] and [saveDocumentSettings], and the part of the dialog
    script that decides which request is sent ([updateInkOptions],
    [applySize]).

    JavaScript numbers are IEEE-754 binary64 values: they are modelled by
    Rocq's primitive [float], whose operations are the same binary64
    operations.  The document body, the document properties and the logger
    belong to the Apps Script host; they are modelled by a world that records
    every host call, and a runtime that decides which host calls throw.

    The server functions are embedded at the argument types the script
    documents (String names, Number dimensions).  The test and the return
    expression of [applyCustomPageSize] are embedded a second time on any
    primitive argument, where a String behaves unlike a Number. *)

From Stdlib Require Import Bool List String Ascii ZArith QArith Qpower Lia Floats.
Import ListNotations.

Set Warnings "-inexact-float".

Open Scope string_scope.

(** ** Numbers and values *)

(** A JavaScript value as far as the server functions can see one in the
    places where a table entry may be missing: [undefined] or a Number. *)
Inductive Value :=
| Undefined
| Num (x : float).

(** ToNumber: [undefined] converts to NaN. *)
Definition toNumber (v : Value) : float :=
  match v with
  | Undefined => nan
  | Num x => x
  end.

(** ToBoolean on a Number: NaN, +0 and -0 are falsy, everything else truthy. *)
Definition truthy (x : float) : bool := negb (is_nan x || is_zero x).

(** [!x] on a Number. *)
Definition js_not (x : float) : bool := negb (truthy x).

(** [a < b] and [a > b] on Numbers; both are false when an operand is NaN. *)
Definition js_lt (a b : float) : bool := (a <? b)%float.
Definition js_gt (a b : float) : bool := (b <? a)%float.

(** [a * b] with ToNumber applied to the left operand. *)
Definition js_mul (v : Value) (k : float) : float := (toNumber v * k)%float.

(** ToBoolean on a string: only the empty string is falsy. *)
Definition truthy_string (s : string) : bool := negb (s =? "").

(** ** Constants and data *)

Definition POINTS_PER_INCH : float := 72.

Definition COLOR_WHITE : string := "#FFFFFF".
Definition COLOR_CREAM : string := "#F8F3E6".

Definition MIN_WIDTH : float := 4.
Definition MAX_WIDTH : float := 8.5.
Definition MIN_HEIGHT : float := 6.
Definition MAX_HEIGHT : float := 11.69.

(** An entry of a size table: [{ width, height, type }]; the common sizes
    carry no [type]. *)
Module Size.
Record t := mk { width : float; height : float; type : option string }.
End Size.

Definition paperback (w h : float) : Size.t := Size.mk w h (Some "paperback").
Definition hardcover (w h : float) : Size.t := Size.mk w h (Some "hardcover").
Definition common (w h : float) : Size.t := Size.mk w h None.

(** The tables are object literals; they are kept as association lists in
    source order. *)
Definition KDP_SIZES : list (string * Size.t) :=
  [ ("Paperback - 5 x 8", paperback 5 8);
    ("Paperback - 5.06 x 7.81", paperback 5.06 7.81);
    ("Paperback - 5.25 x 8", paperback 5.25 8);
    ("Paperback - 5.5 x 8.5", paperback 5.5 8.5);
    ("Paperback - 6 x 9", paperback 6 9);
    ("Paperback - 6.14 x 9.21", paperback 6.14 9.21);
    ("Paperback - 6.69 x 9.61", paperback 6.69 9.61);
    ("Paperback - 7 x 10", paperback 7 10);
    ("Paperback - 7.44 x 9.69", paperback 7.44 9.69);
    ("Paperback - 7.5 x 9.25", paperback 7.5 9.25);
    ("Paperback - 8 x 10", paperback 8 10);
    ("Paperback - 8.25 x 6", paperback 8.25 6);
    ("Paperback - 8.25 x 8.25", paperback 8.25 8.25);
    ("Paperback - 8.5 x 8.5", paperback 8.5 8.5);
    ("Paperback - 8.5 x 11", paperback 8.5 11);
    ("Hardcover - 5 x 8", hardcover 5 8);
    ("Hardcover - 5.5 x 8.5", hardcover 5.5 8.5);
    ("Hardcover - 6 x 9", hardcover 6 9);
    ("Hardcover - 7 x 10", hardcover 7 10);
    ("Hardcover - 8 x 10", hardcover 8 10);
    ("Hardcover - 8.25 x 8.25", hardcover 8.25 8.25);
    ("Hardcover - 8.5 x 8.5", hardcover 8.5 8.5);
    ("Hardcover - 8.5 x 11", hardcover 8.5 11) ].

Definition COMMON_SIZES : list (string * Size.t) :=
  [ ("Letter", common 8.5 11);
    ("Legal", common 8.5 14);
    ("Tabloid", common 11 17);
    ("A4", common 8.27 11.69);
    ("A5", common 5.83 8.27);
    ("A3", common 11.69 16.54);
    ("Custom", common 0 0) ].

(** ** Property lookup on a table object *)

(** The own entry stored under a key, if any. *)
Fixpoint own (table : list (string * Size.t)) (name : string) : option Size.t :=
  match table with
  | [] => None
  | (k, s) :: rest => if k =? name then Some s else own rest name
  end.

(** Both tables are plain objects, so a key they do not own is looked up on
    [Object.prototype].  These are its property names; each of them holds a
    function or an object, which is truthy and has no [width] or [height]. *)
Definition OBJECT_PROTOTYPE : list string :=
  [ "constructor"; "hasOwnProperty"; "isPrototypeOf"; "propertyIsEnumerable";
    "toLocaleString"; "toString"; "valueOf"; "__proto__";
    "__defineGetter__"; "__defineSetter__"; "__lookupGetter__";
    "__lookupSetter__" ].

Definition inherited (name : string) : bool :=
  existsb (String.eqb name) OBJECT_PROTOTYPE.

(** What [TABLE[name]] evaluates to. *)
Inductive Property :=
| Entry (s : Size.t)   (* an own entry of the table *)
| Inherited            (* a member of Object.prototype *)
| Missing.             (* undefined *)

Definition getProperty (table : list (string * Size.t)) (name : string) : Property :=
  match own table name with
  | Some s => Entry s
  | None => if inherited name then Inherited else Missing
  end.

(** [if (TABLE[name])]: entries and inherited members are objects. *)
Definition truthy_property (p : Property) : bool :=
  match p with
  | Missing => false
  | _ => true
  end.

(** ** Errors, host calls and the world *)

(** What a [catch] clause of the server functions can receive. *)
Inductive JsError :=
| ReadOfUndefined (prop : string)  (* TypeError: a property read on undefined *)
| HostFailure (text : string).     (* thrown by an Apps Script service *)

(** [error.toString()]; the TypeError text is the V8 runtime's wording. *)
Definition errorToString (e : JsError) : string :=
  match e with
  | ReadOfUndefined prop =>
      "TypeError: Cannot read properties of undefined (reading '" ++ prop ++ "')"
  | HostFailure text => text
  end.

(** The record [saveDocumentSettings] builds.  It is stored as built: the
    JSON text the script writes is an encoding of these seven fields. *)
Module Settings.
Record t := mk {
  sizeName : string;
  width : Value;
  height : Value;
  bookType : string;
  paperType : string;
  inkType : string;
  lastUpdated : string
}.
End Settings.

(** The calls the server functions make on the host. *)
Inductive Call :=
| GetActiveDocument
| GetBody
| SetPageWidth (points : float)
| SetPageHeight (points : float)
| SetBackgroundColor (color : string)
| SetMarginTop (points : float)
| SetMarginBottom (points : float)
| SetMarginLeft (points : float)
| SetMarginRight (points : float)
| GetDocumentProperties
| SetProperty (key : string) (value : Settings.t)
| LoggerLog (text : string).

(** The page geometry of the document body. *)
Record Body := mkBody {
  pageWidth : float;
  pageHeight : float;
  backgroundColor : string;
  marginTop : float;
  marginBottom : float;
  marginLeft : float;
  marginRight : float
}.

(** The document, its properties, and the calls made so far (oldest first;
    a call is recorded whether or not it throws). *)
Record World := mkWorld {
  body : Body;
  properties : list (string * Settings.t);
  journal : list Call
}.

Definition record (c : Call) (w : World) : World :=
  mkWorld (body w) (properties w) (journal w ++ [c]).

Definition setBody (f : Body -> Body) (w : World) : World :=
  mkWorld (f (body w)) (properties w) (journal w).

Definition putProperty (key : string) (v : Settings.t) (w : World) : World :=
  mkWorld (body w)
          ((key, v) :: filter (fun kv => negb (fst kv =? key)) (properties w))
          (journal w).

Fixpoint getProperty_of (props : list (string * Settings.t)) (key : string)
  : option Settings.t :=
  match props with
  | [] => None
  | (k, v) :: rest => if k =? key then Some v else getProperty_of rest key
  end.

(** The effect of a call that does not throw. *)
Definition perform (c : Call) (w : World) : World :=
  match c with
  | SetPageWidth x =>
      setBody (fun b => mkBody x (pageHeight b) (backgroundColor b) (marginTop b)
                               (marginBottom b) (marginLeft b) (marginRight b)) w
  | SetPageHeight x =>
      setBody (fun b => mkBody (pageWidth b) x (backgroundColor b) (marginTop b)
                               (marginBottom b) (marginLeft b) (marginRight b)) w
  | SetBackgroundColor c =>
      setBody (fun b => mkBody (pageWidth b) (pageHeight b) c (marginTop b)
                               (marginBottom b) (marginLeft b) (marginRight b)) w
  | SetMarginTop x =>
      setBody (fun b => mkBody (pageWidth b) (pageHeight b) (backgroundColor b) x
                               (marginBottom b) (marginLeft b) (marginRight b)) w
  | SetMarginBottom x =>
      setBody (fun b => mkBody (pageWidth b) (pageHeight b) (backgroundColor b)
                               (marginTop b) x (marginLeft b) (marginRight b)) w
  | SetMarginLeft x =>
      setBody (fun b => mkBody (pageWidth b) (pageHeight b) (backgroundColor b)
                               (marginTop b) (marginBottom b) x (marginRight b)) w
  | SetMarginRight x =>
      setBody (fun b => mkBody (pageWidth b) (pageHeight b) (backgroundColor b)
                               (marginTop b) (marginBottom b) (marginLeft b) x) w
  | SetProperty key v => putProperty key v w
  | GetActiveDocument | GetBody | GetDocumentProperties | LoggerLog _ => w
  end.

(** What the script cannot decide: the clock, and which host calls throw
    (the decision may depend on the document and on the calls made before). *)
Record Runtime := mkRuntime {
  now : string;                             (* new Date().toISOString() *)
  throws : World -> Call -> option string   (* the text of the error thrown *)
}.

(** ** Computations that change the world and may throw *)

Definition M (A : Type) : Type := World -> (A + JsError) * World.

Definition ret {A} (a : A) : M A := fun w => (inl a, w).

Definition throw {A} (e : JsError) : M A := fun w => (inr e, w).

Definition bind {A B} (m : M A) (k : A -> M B) : M B :=
  fun w =>
    match m w with
    | (inl a, w') => k a w'
    | (inr e, w') => (inr e, w')
    end.

(** [try { body } catch (error) { handler }] where the handler returns. *)
Definition try_catch {A} (m : M A) (handler : JsError -> World -> A * World)
  : World -> A * World :=
  fun w =>
    match m w with
    | (inl a, w') => (a, w')
    | (inr e, w') => handler e w'
    end.

Declare Scope js_scope.
Delimit Scope js_scope with js.
Notation "x <- m ;; k" := (bind m (fun x => k))
  (at level 61, m at next level, right associativity) : js_scope.
Notation "m ;; k" := (bind m (fun _ => k))
  (at level 61, right associativity) : js_scope.

(** ** The server functions *)

(** The [marginSettings] object: the dialog sends either [{ type }] or
    [{ top, bottom, inside, outside }]; a property that is not sent reads as
    [undefined]. *)
Module MarginSettings.
Record t := mk {
  type : option string;
  top : Value;
  bottom : Value;
  inside : Value;
  outside : Value
}.
End MarginSettings.

Definition named (type : string) : MarginSettings.t :=
  MarginSettings.mk (Some type) Undefined Undefined Undefined Undefined.

Definition custom (top bottom inside outside : float) : MarginSettings.t :=
  MarginSettings.mk None (Num top) (Num bottom) (Num inside) (Num outside).

(** The three [return] statements of each server function: the success
    message, the validation message, and the [catch] clause. *)
Inductive Reply :=
| PageSizeSet (sizeName : string) (widthInches heightInches : Value)
              (bookType paperType inkType : string)
| CustomPageSizeSet (widthInches heightInches : float)
                    (bookType paperType inkType : string)
| InvalidDimensions
| Caught (error : JsError).

Definition KEY : string := "kdpFormatterSettings".

Section Server.

Variable rt : Runtime.

Local Open Scope js_scope.

(** A host call: it is recorded, then it throws or takes effect. *)
Definition invoke (c : Call) : M unit :=
  fun w =>
    match throws rt w c with
    | Some text => (inr (HostFailure text), record c w)
    | None => (inl tt, perform c (record c w))
    end.

(** [TABLE[name].width] and [TABLE[name].height]. *)
Definition readWidth (p : Property) : M Value :=
  match p with
  | Entry s => ret (Num (Size.width s))
  | Inherited => ret Undefined
  | Missing => throw (ReadOfUndefined "width")
  end.

Definition readHeight (p : Property) : M Value :=
  match p with
  | Entry s => ret (Num (Size.height s))
  | Inherited => ret Undefined
  | Missing => throw (ReadOfUndefined "height")
  end.

(** [marginSettings.type === label]; [undefined] equals no label. *)
Definition type_is (type : option string) (label : string) : bool :=
  match type with
  | Some t => t =? label
  | None => false
  end.

(** ToBoolean of [marginSettings.type]. *)
Definition truthy_type (type : option string) : bool :=
  match type with
  | Some t => truthy_string t
  | None => false
  end.

Definition applyMargins (marginSettings : MarginSettings.t) : M unit :=
  let type := MarginSettings.type marginSettings in
  if truthy_type type then
    (* switch (marginSettings.type), which has no default case *)
    if type_is type "default" then
      invoke (SetMarginTop (1 * POINTS_PER_INCH)) ;;
      invoke (SetMarginBottom (1 * POINTS_PER_INCH)) ;;
      invoke (SetMarginLeft (1 * POINTS_PER_INCH)) ;;
      invoke (SetMarginRight (1 * POINTS_PER_INCH))
    else if type_is type "narrow" then
      invoke (SetMarginTop (0.5 * POINTS_PER_INCH)) ;;
      invoke (SetMarginBottom (0.5 * POINTS_PER_INCH)) ;;
      invoke (SetMarginLeft (0.5 * POINTS_PER_INCH)) ;;
      invoke (SetMarginRight (0.5 * POINTS_PER_INCH))
    else if type_is type "wide" then
      invoke (SetMarginTop (1.25 * POINTS_PER_INCH)) ;;
      invoke (SetMarginBottom (1.25 * POINTS_PER_INCH)) ;;
      invoke (SetMarginLeft (1.25 * POINTS_PER_INCH)) ;;
      invoke (SetMarginRight (1.25 * POINTS_PER_INCH))
    else if type_is type "mirrored" then
      invoke (SetMarginTop (1 * POINTS_PER_INCH)) ;;
      invoke (SetMarginBottom (1 * POINTS_PER_INCH)) ;;
      invoke (SetMarginLeft (1.25 * POINTS_PER_INCH)) ;;
      invoke (SetMarginRight (0.75 * POINTS_PER_INCH))
    else ret tt
  else
    invoke (SetMarginTop (js_mul (MarginSettings.top marginSettings) POINTS_PER_INCH)) ;;
    invoke (SetMarginBottom (js_mul (MarginSettings.bottom marginSettings) POINTS_PER_INCH)) ;;
    invoke (SetMarginLeft (js_mul (MarginSettings.inside marginSettings) POINTS_PER_INCH)) ;;
    invoke (SetMarginRight (js_mul (MarginSettings.outside marginSettings) POINTS_PER_INCH)).

Definition saveDocumentSettings (sizeName : string) (width height : Value)
           (bookType paperType inkType : string) : M unit :=
  invoke GetDocumentProperties ;;
  let settings :=
    Settings.mk sizeName width height bookType paperType inkType (now rt) in
  invoke (SetProperty KEY settings).

(** [Logger.log]: recorded in the journal. *)
Definition log (text : string) : World -> unit * World :=
  fun w => (tt, record (LoggerLog text) w).

Definition applyPageSettings (sizeName bookType paperType inkType : string)
           (marginSettings : MarginSettings.t) : World -> Reply * World :=
  try_catch
    (dims <-
       (if truthy_property (getProperty KDP_SIZES sizeName) then
          w <- readWidth (getProperty KDP_SIZES sizeName) ;;
          h <- readHeight (getProperty KDP_SIZES sizeName) ;;
          ret (w, h)
        else
          w <- readWidth (getProperty COMMON_SIZES sizeName) ;;
          h <- readHeight (getProperty COMMON_SIZES sizeName) ;;
          ret (w, h)) ;;
     let widthInches := fst dims in
     let heightInches := snd dims in
     let pageWidth := js_mul widthInches POINTS_PER_INCH in
     let pageHeight := js_mul heightInches POINTS_PER_INCH in
     invoke GetActiveDocument ;;
     invoke GetBody ;;
     invoke (SetPageWidth pageWidth) ;;
     invoke (SetPageHeight pageHeight) ;;
     invoke (SetBackgroundColor
               (if paperType =? "cream" then COLOR_CREAM else COLOR_WHITE)) ;;
     applyMargins marginSettings ;;
     saveDocumentSettings sizeName widthInches heightInches
                          bookType paperType inkType ;;
     ret (PageSizeSet sizeName widthInches heightInches
                      bookType paperType inkType))
    (fun error w =>
       let (_, w') :=
         log ("Error in applyPageSettings: " ++ errorToString error) w in
       (Caught error, w')).

(** The two dimensions are Numbers, as the script documents them and as
    the dialog, which sends [parseFloat] results, passes them; on two
    Numbers the return expression cannot throw.  What the test and the
    return expression do with another primitive is in
    [rejectsDimensions] and [customReturn] below. *)
Definition applyCustomPageSize (widthInches heightInches : float)
           (bookType paperType inkType : string)
           (marginSettings : MarginSettings.t) : World -> Reply * World :=
  try_catch
    (if js_not widthInches || js_not heightInches
        || js_lt widthInches MIN_WIDTH || js_gt widthInches MAX_WIDTH
        || js_lt heightInches MIN_HEIGHT || js_gt heightInches MAX_HEIGHT
     then ret InvalidDimensions
     else
       let pageWidth := js_mul (Num widthInches) POINTS_PER_INCH in
       let pageHeight := js_mul (Num heightInches) POINTS_PER_INCH in
       invoke GetActiveDocument ;;
       invoke GetBody ;;
       invoke (SetPageWidth pageWidth) ;;
       invoke (SetPageHeight pageHeight) ;;
       invoke (SetBackgroundColor
                 (if paperType =? "cream" then COLOR_CREAM else COLOR_WHITE)) ;;
       applyMargins marginSettings ;;
       saveDocumentSettings "Custom" (Num widthInches) (Num heightInches)
                            bookType paperType inkType ;;
       ret (CustomPageSizeSet widthInches heightInches
                              bookType paperType inkType))
    (fun error w =>
       let (_, w') :=
         log ("Error in applyCustomPageSize: " ++ errorToString error) w in
       (Caught error, w')).

End Server.

(** ** The text of a reply *)

Definition DQUOTE : string := String (ascii_of_nat 34) EmptyString.

(** [sizeName.replace(/^(Paperback|Hardcover) - /, '')]. *)
Definition stripBookPrefix (sizeName : string) : string :=
  if prefix "Paperback - " sizeName then
    substring 12 (length sizeName - 12) sizeName
  else if prefix "Hardcover - " sizeName then
    substring 12 (length sizeName - 12) sizeName
  else sizeName.

Section Message.

(** Number-to-string conversion and [toFixed(2)] are the engine's. *)
Variable numberToString : float -> string.
Variable toFixed2 : float -> string.

Definition valueToString (v : Value) : string :=
  match v with
  | Undefined => "undefined"
  | Num x => numberToString x
  end.

(** The string each [return] statement builds. *)
Definition message (r : Reply) : string :=
  match r with
  | PageSizeSet sizeName w h bookType paperType inkType =>
      "Page size set to " ++ stripBookPrefix sizeName ++
      " (" ++ valueToString w ++ DQUOTE ++ " × " ++ valueToString h ++ DQUOTE ++
      ") as " ++ bookType ++ " with " ++ paperType ++ " paper and " ++
      inkType ++ " ink."
  | CustomPageSizeSet w h bookType paperType inkType =>
      "Custom page size set to " ++ toFixed2 w ++ DQUOTE ++ " × " ++
      toFixed2 h ++ DQUOTE ++ " as " ++ bookType ++ " with " ++ paperType ++
      " paper and " ++ inkType ++ " ink."
  | InvalidDimensions =>
      "Error: Invalid dimensions. Width must be between " ++
      numberToString MIN_WIDTH ++ DQUOTE ++ " and " ++
      numberToString MAX_WIDTH ++ DQUOTE ++ ", and height between " ++
      numberToString MIN_HEIGHT ++ DQUOTE ++ " and " ++
      numberToString MAX_HEIGHT ++ DQUOTE ++ "."
  | Caught error => "Error: " ++ errorToString error
  end.

End Message.

(** ** The dialog script *)

(** The form controls the script reads.  A number field is kept as the
    result of [parseFloat] on its text (NaN when the text is not a number). *)
Module Dialog.
Record t := mk {
  bookSize : string;
  bookType : string;
  paperType : string;
  inkType : string;
  standardDisabled : bool;   (* option[value="standard"].disabled *)
  margins : string;
  customWidth : float;
  customHeight : float;
  topMargin : float;
  bottomMargin : float;
  insideMargin : float;
  outsideMargin : float
}.
End Dialog.

(** The option values of each [select]. *)
Definition BOOK_SIZE_OPTIONS : list string :=
  "" :: map fst KDP_SIZES ++ map fst COMMON_SIZES.
Definition BOOK_TYPE_OPTIONS : list string := ["paperback"; "hardcover"].
Definition PAPER_TYPE_OPTIONS : list string := ["white"; "cream"].
Definition INK_TYPE_OPTIONS : list string := ["black"; "premium"; "standard"].
Definition MARGIN_OPTIONS : list string :=
  ["default"; "narrow"; "wide"; "mirrored"; "custom"].

Definition offers (options : list string) (value : string) : bool :=
  existsb (String.eqb value) options.

Definition updateInkOptions (d : Dialog.t) : Dialog.t :=
  if Dialog.bookType d =? "hardcover" then
    Dialog.mk (Dialog.bookSize d) (Dialog.bookType d) (Dialog.paperType d)
              (if Dialog.inkType d =? "standard" then "premium"
               else Dialog.inkType d)
              true
              (Dialog.margins d) (Dialog.customWidth d) (Dialog.customHeight d)
              (Dialog.topMargin d) (Dialog.bottomMargin d)
              (Dialog.insideMargin d) (Dialog.outsideMargin d)
  else
    Dialog.mk (Dialog.bookSize d) (Dialog.bookType d) (Dialog.paperType d)
              (Dialog.inkType d)
              false
              (Dialog.margins d) (Dialog.customWidth d) (Dialog.customHeight d)
              (Dialog.topMargin d) (Dialog.bottomMargin d)
              (Dialog.insideMargin d) (Dialog.outsideMargin d).

(** The form as the markup declares it, before the script's last line. *)
Definition markup : Dialog.t :=
  Dialog.mk "" "paperback" "white" "black" false "default" nan nan 1 1 1 1.

(** The form once the script has run ([updateInkOptions()] at its end). *)
Definition opened : Dialog.t := updateInkOptions markup.

(** What the author can do before pressing Apply. *)
Inductive Event :=
| SelectBookSize (value : string)
| SelectBookType (value : string)
| SelectPaperType (value : string)
| SelectInkType (value : string)
| SelectMargins (value : string)
| EnterCustomWidth (parsed : float)
| EnterCustomHeight (parsed : float)
| EnterTopMargin (parsed : float)
| EnterBottomMargin (parsed : float)
| EnterInsideMargin (parsed : float)
| EnterOutsideMargin (parsed : float).

Definition setBookSize (v : string) (d : Dialog.t) : Dialog.t :=
  Dialog.mk v (Dialog.bookType d) (Dialog.paperType d) (Dialog.inkType d)
            (Dialog.standardDisabled d) (Dialog.margins d)
            (Dialog.customWidth d) (Dialog.customHeight d) (Dialog.topMargin d)
            (Dialog.bottomMargin d) (Dialog.insideMargin d) (Dialog.outsideMargin d).

Definition setBookType (v : string) (d : Dialog.t) : Dialog.t :=
  Dialog.mk (Dialog.bookSize d) v (Dialog.paperType d) (Dialog.inkType d)
            (Dialog.standardDisabled d) (Dialog.margins d)
            (Dialog.customWidth d) (Dialog.customHeight d) (Dialog.topMargin d)
            (Dialog.bottomMargin d) (Dialog.insideMargin d) (Dialog.outsideMargin d).

Definition setPaperType (v : string) (d : Dialog.t) : Dialog.t :=
  Dialog.mk (Dialog.bookSize d) (Dialog.bookType d) v (Dialog.inkType d)
            (Dialog.standardDisabled d) (Dialog.margins d)
            (Dialog.customWidth d) (Dialog.customHeight d) (Dialog.topMargin d)
            (Dialog.bottomMargin d) (Dialog.insideMargin d) (Dialog.outsideMargin d).

Definition setInkType (v : string) (d : Dialog.t) : Dialog.t :=
  Dialog.mk (Dialog.bookSize d) (Dialog.bookType d) (Dialog.paperType d) v
            (Dialog.standardDisabled d) (Dialog.margins d)
            (Dialog.customWidth d) (Dialog.customHeight d) (Dialog.topMargin d)
            (Dialog.bottomMargin d) (Dialog.insideMargin d) (Dialog.outsideMargin d).

Definition setMargins (v : string) (d : Dialog.t) : Dialog.t :=
  Dialog.mk (Dialog.bookSize d) (Dialog.bookType d) (Dialog.paperType d)
            (Dialog.inkType d) (Dialog.standardDisabled d) v
            (Dialog.customWidth d) (Dialog.customHeight d) (Dialog.topMargin d)
            (Dialog.bottomMargin d) (Dialog.insideMargin d) (Dialog.outsideMargin d).

Definition setNumbers (cw ch t b i o : float) (d : Dialog.t) : Dialog.t :=
  Dialog.mk (Dialog.bookSize d) (Dialog.bookType d) (Dialog.paperType d)
            (Dialog.inkType d) (Dialog.standardDisabled d) (Dialog.margins d)
            cw ch t b i o.

(** One action of the author and the [change] listener it triggers.  The
    browser offers only the listed options of a [select], and does not let a
    disabled option be chosen; [None] is an action the form does not allow. *)
Definition step (d : Dialog.t) (e : Event) : option Dialog.t :=
  match e with
  | SelectBookSize v =>
      if offers BOOK_SIZE_OPTIONS v then
        let d := setBookSize v d in
        Some (if prefix "Hardcover" v then
                updateInkOptions (setBookType "hardcover" d)
              else if prefix "Paperback" v then
                updateInkOptions (setBookType "paperback" d)
              else d)
      else None
  | SelectBookType v =>
      if offers BOOK_TYPE_OPTIONS v then Some (updateInkOptions (setBookType v d))
      else None
  | SelectPaperType v =>
      if offers PAPER_TYPE_OPTIONS v then Some (setPaperType v d) else None
  | SelectInkType v =>
      if offers INK_TYPE_OPTIONS v
         && negb ((v =? "standard") && Dialog.standardDisabled d)
      then Some (setInkType v d)
      else None
  | SelectMargins v =>
      if offers MARGIN_OPTIONS v then Some (setMargins v d) else None
  | EnterCustomWidth x =>
      Some (setNumbers x (Dialog.customHeight d) (Dialog.topMargin d)
                       (Dialog.bottomMargin d) (Dialog.insideMargin d)
                       (Dialog.outsideMargin d) d)
  | EnterCustomHeight x =>
      Some (setNumbers (Dialog.customWidth d) x (Dialog.topMargin d)
                       (Dialog.bottomMargin d) (Dialog.insideMargin d)
                       (Dialog.outsideMargin d) d)
  | EnterTopMargin x =>
      Some (setNumbers (Dialog.customWidth d) (Dialog.customHeight d) x
                       (Dialog.bottomMargin d) (Dialog.insideMargin d)
                       (Dialog.outsideMargin d) d)
  | EnterBottomMargin x =>
      Some (setNumbers (Dialog.customWidth d) (Dialog.customHeight d)
                       (Dialog.topMargin d) x (Dialog.insideMargin d)
                       (Dialog.outsideMargin d) d)
  | EnterInsideMargin x =>
      Some (setNumbers (Dialog.customWidth d) (Dialog.customHeight d)
                       (Dialog.topMargin d) (Dialog.bottomMargin d) x
                       (Dialog.outsideMargin d) d)
  | EnterOutsideMargin x =>
      Some (setNumbers (Dialog.customWidth d) (Dialog.customHeight d)
                       (Dialog.topMargin d) (Dialog.bottomMargin d)
                       (Dialog.insideMargin d) x d)
  end.

(** The forms the author can reach from the opened dialog. *)
Inductive reachable : Dialog.t -> Prop :=
| reach_opened : reachable opened
| reach_step d e d' : reachable d -> step d e = Some d' -> reachable d'.

(** What pressing Apply does: one of the two server calls, or an alert. *)
Inductive Request :=
| CallApplyCustomPageSize (width height : float)
                          (bookType paperType inkType : string)
                          (marginSettings : MarginSettings.t)
| CallApplyPageSettings (selectedSize bookType paperType inkType : string)
                        (marginSettings : MarginSettings.t)
| AlertInvalidDimensions
| AlertNoSelection.

Definition applySize (d : Dialog.t) : Request :=
  let selectedSize := Dialog.bookSize d in
  let bookType := Dialog.bookType d in
  let paperType := Dialog.paperType d in
  let inkType := Dialog.inkType d in
  let marginType := Dialog.margins d in
  let marginSettings :=
    if marginType =? "custom" then
      custom (Dialog.topMargin d) (Dialog.bottomMargin d)
             (Dialog.insideMargin d) (Dialog.outsideMargin d)
    else named marginType in
  if selectedSize =? "Custom" then
    let width := Dialog.customWidth d in
    let height := Dialog.customHeight d in
    if js_not width || js_not height
       || js_lt width MIN_WIDTH || js_gt width MAX_WIDTH
       || js_lt height MIN_HEIGHT || js_gt height MAX_HEIGHT
    then AlertInvalidDimensions
    else CallApplyCustomPageSize width height bookType paperType inkType
                                 marginSettings
  else if truthy_string selectedSize then
    CallApplyPageSettings selectedSize bookType paperType inkType marginSettings
  else AlertNoSelection.

(** ** Vocabulary of the properties *)

(** A runtime is quiet when no host call throws.  [obliging] is the quiet
    runtime, [failing] the one in which every host call throws the same
    error. *)
Definition quiet (rt : Runtime) : Prop := forall w c, throws rt w c = None.

Definition obliging (stamp : string) : Runtime :=
  mkRuntime stamp (fun _ _ => None).

Definition failing (stamp text : string) : Runtime :=
  mkRuntime stamp (fun _ _ => Some text).

(** A new document: Letter paper, white, one-inch margins, nothing stored,
    no call made. *)
Definition blank : World :=
  mkWorld (mkBody 612 792 COLOR_WHITE 72 72 72 72) [] [].

(** The dimension policy as the specification words it: both numbers finite,
    the width in [[MIN_WIDTH, MAX_WIDTH]], the height in
    [[MIN_HEIGHT, MAX_HEIGHT]], bounds included. *)
Definition within (lo hi x : float) : bool :=
  ((lo <=? x) && (x <=? hi))%float.

Definition acceptable (widthInches heightInches : float) : bool :=
  is_finite widthInches && is_finite heightInches
  && within MIN_WIDTH MAX_WIDTH widthInches
  && within MIN_HEIGHT MAX_HEIGHT heightInches.

(** The rational number a binary64 value denotes: [(-1)^s * m * 2^e] for a
    finite value, 0 for a zero (and, by convention, for NaN and the
    infinities, which the statements below exclude). *)
Definition valueSF (x : spec_float) : Q :=
  match x with
  | S754_finite s m e => (inject_Z (cond_Zopp s (Zpos m)) * 2 ^ e)%Q
  | _ => 0%Q
  end.

Definition value (x : float) : Q := valueSF (Prim2SF x).

(** The same number scaled by [2^1074], the inverse of the least positive
    binary64 value: an integer for every binary64 value. *)
Definition scaled (x : spec_float) : Z :=
  match x with
  | S754_finite s m e => cond_Zopp s (Zpos m * 2 ^ (e + 1074))
  | _ => 0
  end.

(** Zero or finite: neither NaN nor an infinity. *)
Definition finiteSF (x : spec_float) : bool :=
  match x with
  | S754_zero _ | S754_finite _ _ _ => true
  | _ => false
  end.

(** The four bounds of the policy, and the ones a pair of numbers breaks. *)
Inductive Bound := WidthMin | WidthMax | HeightMin | HeightMax.

Definition violated (widthInches heightInches : float) : list Bound :=
  (if js_lt widthInches MIN_WIDTH then [WidthMin] else []) ++
  (if js_gt widthInches MAX_WIDTH then [WidthMax] else []) ++
  (if js_lt heightInches MIN_HEIGHT then [HeightMin] else []) ++
  (if js_gt heightInches MAX_HEIGHT then [HeightMax] else []).

(** The four margins of a body: top, bottom, left (inside), right (outside). *)
Definition margins (b : Body) : float * float * float * float :=
  (marginTop b, marginBottom b, marginLeft b, marginRight b).

(** The margin resolver as the specification words it: a named variant
    resolves to four fixed values in inches, a custom selection passes its
    four values through. *)
Definition resolveMargins (ms : MarginSettings.t)
  : option (Value * Value * Value * Value) :=
  match MarginSettings.type ms with
  | Some type =>
      if type =? "default" then Some (Num 1, Num 1, Num 1, Num 1)
      else if type =? "narrow" then Some (Num 0.5, Num 0.5, Num 0.5, Num 0.5)
      else if type =? "wide" then Some (Num 1.25, Num 1.25, Num 1.25, Num 1.25)
      else if type =? "mirrored" then Some (Num 1, Num 1, Num 1.25, Num 0.75)
      else None
  | None =>
      Some (MarginSettings.top ms, MarginSettings.bottom ms,
            MarginSettings.inside ms, MarginSettings.outside ms)
  end.

(** Unit conversion as the specification words it: one multiplication by
    the constant 72. *)
Definition toPoints (inches : Value) : float := (toNumber inches * 72)%float.

(** A size name is absent when neither table owns it. *)
Definition absent (sizeName : string) : Prop :=
  own KDP_SIZES sizeName = None /\ own COMMON_SIZES sizeName = None.

(** The pair the ink rule forbids. *)
Definition hardcover_standard (bookType inkType : string) : Prop :=
  bookType = "hardcover" /\ inkType = "standard".

(** The book type and ink type a request carries. *)
Definition carried (r : Request) : option (string * string) :=
  match r with
  | CallApplyCustomPageSize _ _ bookType _ inkType _ => Some (bookType, inkType)
  | CallApplyPageSettings _ bookType _ inkType _ => Some (bookType, inkType)
  | _ => None
  end.

(** What the table lookup at the head of [applyPageSettings] leaves in
    [widthInches] and [heightInches], or the error it throws. *)
Definition dimensionsOf (sizeName : string) : (Value * Value) + JsError :=
  match getProperty KDP_SIZES sizeName with
  | Entry s => inl (Num (Size.width s), Num (Size.height s))
  | Inherited => inl (Undefined, Undefined)
  | Missing =>
      match getProperty COMMON_SIZES sizeName with
      | Entry s => inl (Num (Size.width s), Num (Size.height s))
      | Inherited => inl (Undefined, Undefined)
      | Missing => inr (ReadOfUndefined "width")
      end
  end.

(** The host calls of a straight-line run, in order. *)
Section Plans.

Variable rt : Runtime.

Local Open Scope js_scope.

Fixpoint invokeAll (cs : list Call) : M unit :=
  match cs with
  | [] => ret tt
  | c :: rest => invoke rt c ;; invokeAll rest
  end.

Definition marginPlan (ms : MarginSettings.t) : list Call :=
  let type := MarginSettings.type ms in
  let all (t b l r : float) :=
    [SetMarginTop t; SetMarginBottom b; SetMarginLeft l; SetMarginRight r] in
  if truthy_type type then
    if type_is type "default" then
      all (1 * POINTS_PER_INCH)%float (1 * POINTS_PER_INCH)%float
          (1 * POINTS_PER_INCH)%float (1 * POINTS_PER_INCH)%float
    else if type_is type "narrow" then
      all (0.5 * POINTS_PER_INCH)%float (0.5 * POINTS_PER_INCH)%float
          (0.5 * POINTS_PER_INCH)%float (0.5 * POINTS_PER_INCH)%float
    else if type_is type "wide" then
      all (1.25 * POINTS_PER_INCH)%float (1.25 * POINTS_PER_INCH)%float
          (1.25 * POINTS_PER_INCH)%float (1.25 * POINTS_PER_INCH)%float
    else if type_is type "mirrored" then
      all (1 * POINTS_PER_INCH)%float (1 * POINTS_PER_INCH)%float
          (1.25 * POINTS_PER_INCH)%float (0.75 * POINTS_PER_INCH)%float
    else []
  else
    all (js_mul (MarginSettings.top ms) POINTS_PER_INCH)
        (js_mul (MarginSettings.bottom ms) POINTS_PER_INCH)
        (js_mul (MarginSettings.inside ms) POINTS_PER_INCH)
        (js_mul (MarginSettings.outside ms) POINTS_PER_INCH).

(** The calls of either server function once the dimensions are known. *)
Definition pagePlan (sizeName : string) (widthInches heightInches : Value)
           (bookType paperType inkType : string) (ms : MarginSettings.t)
  : list Call :=
  [ GetActiveDocument; GetBody;
    SetPageWidth (js_mul widthInches POINTS_PER_INCH);
    SetPageHeight (js_mul heightInches POINTS_PER_INCH);
    SetBackgroundColor (if paperType =? "cream" then COLOR_CREAM else COLOR_WHITE) ]
  ++ (marginPlan ms
      ++ [ GetDocumentProperties;
           SetProperty KEY (Settings.mk sizeName widthInches heightInches
                                        bookType paperType inkType (now rt)) ])%list.

(** How a server function ends: with its success reply, or in its
    [catch] clause, which logs and replies with the error. *)
Definition conclude (fn : string) (success : Reply)
           (r : (unit + JsError) * World) : Reply * World :=
  match r with
  | (inl _, w) => (success, w)
  | (inr e, w) =>
      (Caught e,
       record (LoggerLog ("Error in " ++ fn ++ ": " ++ errorToString e)) w)
  end.

End Plans.

(** The world after a list of calls none of which throws. *)
Definition effects (cs : list Call) (w : World) : World :=
  fold_left (fun w c => perform c (record c w)) cs w.

(** What it would take for the validation message to identify the bound
    that was violated: the bound can be read off the text whenever exactly
    one bound is violated. *)
Definition error_names_violated_bound : Prop :=
  exists which : string -> Bound,
  forall show fixed rt w h bt pt it ms world v,
    violated w h = [v] ->
    which (message show fixed
             (fst (applyCustomPageSize rt w h bt pt it ms world))) = v.

(** The text of the TypeError an absent size name ends in. *)
Definition WIDTH_OF_UNDEFINED : string :=
  "TypeError: Cannot read properties of undefined (reading 'width')".

(** The rule the dialog keeps: with book type "hardcover" the ink type is
    not "standard" and the standard option is disabled. *)
Definition ink_rule (d : Dialog.t) : Prop :=
  Dialog.bookType d = "hardcover" ->
  Dialog.inkType d <> "standard" /\ Dialog.standardDisabled d = true.

(** Sequencing of dialog steps that may be refused. *)
Declare Scope option_bind_scope.
Delimit Scope option_bind_scope with option_bind.
Notation "x <- m ;; k" :=
  (match m with Some x => k | None => None end)
  (at level 61, m at next level, right associativity) : option_bind_scope.

(** ** The rest of the script *)

From Stdlib Require Import DecimalString.

(** *** [toFixed(2)] *)

(** [Number.prototype.toFixed(2)] on a finite number below [10^21]: the
    integer nearest to a hundred times its magnitude (the larger one when
    two are as near), and whether a minus sign comes first.  [None] for NaN,
    the infinities and numbers from [10^21] on, which are written as
    number-to-string writes them. *)
Definition hundredths (x : spec_float) : option (bool * N) :=
  match x with
  | S754_zero _ => Some (false, 0%N)
  | S754_finite s m e =>
      match e with
      | Zneg p =>
          if (10 ^ 21 * 2 ^ Zpos p <=? Zpos m)%Z then None
          else Some (s, Z.to_N ((Zpos m * 200 + 2 ^ Zpos p) / 2 ^ (Zpos p + 1)))
      | _ =>
          if (10 ^ 21 <=? Zpos m * 2 ^ e)%Z then None
          else Some (s, Z.to_N (Zpos m * 100 * 2 ^ e))
      end
  | _ => None
  end.

(** The digits of [n] with a point before the last two, at least one digit
    before the point. *)
Definition pointed (n : N) : string :=
  let digits := NilZero.string_of_uint (N.to_uint n) in
  let digits :=
    match length digits with
    | 1%nat => "00" ++ digits
    | 2%nat => "0" ++ digits
    | _ => digits
    end in
  substring 0 (length digits - 2) digits ++ "." ++
  substring (length digits - 2) 2 digits.

Definition toFixed2 (numberToString : float -> string) (x : float) : string :=
  match hundredths (Prim2SF x) with
  | Some (negative, n) => (if negative then "-" else "") ++ pointed n
  | None => numberToString x
  end.

(** *** [showCurrentMargins] *)

(** What [ui.alert(title, prompt, ui.ButtonSet.OK)] shows. *)
Module Alert.
Record t := mk { title : string; prompt : string }.
End Alert.

Definition NEWLINE : string := String (ascii_of_nat 10) EmptyString.

Section Show.

Variable rt : Runtime.
Variable numberToString : float -> string.
Variable toFixed : float -> string.

Local Open Scope js_scope.

(** The six getters read the body; the alert is the result. *)
Definition showCurrentMargins : M Alert.t :=
  invoke rt GetActiveDocument ;;
  invoke rt GetBody ;;
  fun w =>
    let topMargin := marginTop (body w) in
    let bottomMargin := marginBottom (body w) in
    let leftMargin := marginLeft (body w) in
    let rightMargin := marginRight (body w) in
    let pageWidth := pageWidth (body w) in
    let pageHeight := pageHeight (body w) in
    let topInches := (topMargin / POINTS_PER_INCH)%float in
    let bottomInches := (bottomMargin / POINTS_PER_INCH)%float in
    let leftInches := (leftMargin / POINTS_PER_INCH)%float in
    let rightInches := (rightMargin / POINTS_PER_INCH)%float in
    let widthInches := (pageWidth / POINTS_PER_INCH)%float in
    let heightInches := (pageHeight / POINTS_PER_INCH)%float in
    (inl (Alert.mk
            "Page Settings"
            ("Page Size: " ++ toFixed widthInches ++ DQUOTE ++ " × " ++
             toFixed heightInches ++ DQUOTE ++ " (" ++
             numberToString pageWidth ++ " × " ++
             numberToString pageHeight ++ " pts)" ++ NEWLINE ++ NEWLINE ++
             "Margins:" ++ NEWLINE ++
             "Top: " ++ toFixed topInches ++ DQUOTE ++ " (" ++
             numberToString topMargin ++ " pts)" ++ NEWLINE ++
             "Bottom: " ++ toFixed bottomInches ++ DQUOTE ++ " (" ++
             numberToString bottomMargin ++ " pts)" ++ NEWLINE ++
             "Left: " ++ toFixed leftInches ++ DQUOTE ++ " (" ++
             numberToString leftMargin ++ " pts)" ++ NEWLINE ++
             "Right: " ++ toFixed rightInches ++ DQUOTE ++ " (" ++
             numberToString rightMargin ++ " pts)")),
     w).

End Show.

(** *** The size dropdown of [setCustomPageSize] *)

(** One [<option value="...">label</option>] of the size dropdown. *)
Module Choice.
Record t := mk { value : string; label : string }.
End Choice.

Section Dropdown.

Variable numberToString : float -> string.

Definition dimensions (s : Size.t) : string :=
  " (" ++ numberToString (Size.width s) ++ DQUOTE ++ " × " ++
  numberToString (Size.height s) ++ DQUOTE ++ ")".

Definition kdpChoice (entry : string * Size.t) : Choice.t :=
  Choice.mk (fst entry) (stripBookPrefix (fst entry) ++ dimensions (snd entry)).

(** The loop over the KDP table: an entry goes to the paperback group
    when its [type] is "paperback", to the hardcover group otherwise. *)
Definition kdpGroupsOf (table : list (string * Size.t))
  : list Choice.t * list Choice.t :=
  fold_left
    (fun groups entry =>
       if type_is (Size.type (snd entry)) "paperback"
       then (fst groups ++ [kdpChoice entry], snd groups)%list
       else (fst groups, snd groups ++ [kdpChoice entry])%list)
    table ([], []).

Definition kdpGroups : list Choice.t * list Choice.t :=
  kdpGroupsOf KDP_SIZES.

(** The loop over [COMMON_SIZES]: "Custom" is listed without dimensions. *)
Definition commonGroup : list Choice.t :=
  fold_left
    (fun group entry =>
       let size := fst entry in
       if negb (size =? "Custom")
       then (group ++ [Choice.mk size (size ++ dimensions (snd entry))])%list
       else (group ++ [Choice.mk size size])%list)
    COMMON_SIZES [].

(** The options of [<select id="bookSize">], in document order. *)
Definition bookSizeChoices : list Choice.t :=
  (Choice.mk "" "-- Select a Size --"
   :: fst kdpGroups ++ snd kdpGroups ++ commonGroup)%list.

End Dropdown.

(** *** Vocabulary *)

(** A reply that reports a failure: the validation message or a caught
    error. *)
Definition failed (r : Reply) : bool :=
  match r with
  | InvalidDimensions | Caught _ => true
  | _ => false
  end.

(** The values a reachable form holds are options of its selects, and the
    standard-ink option is disabled exactly for a hardcover. *)
Definition well_formed (d : Dialog.t) : Prop :=
  offers BOOK_SIZE_OPTIONS (Dialog.bookSize d) = true
  /\ offers BOOK_TYPE_OPTIONS (Dialog.bookType d) = true
  /\ offers PAPER_TYPE_OPTIONS (Dialog.paperType d) = true
  /\ offers INK_TYPE_OPTIONS (Dialog.inkType d) = true
  /\ offers MARGIN_OPTIONS (Dialog.margins d) = true
  /\ Dialog.standardDisabled d = (Dialog.bookType d =? "hardcover").

(** The runtime in which one kind of call, chosen by [refused], throws. *)
Definition refusing (stamp text : string) (refused : Call -> bool) : Runtime :=
  mkRuntime stamp (fun _ c => if refused c then Some text else None).

(** The calls that write a document property, and the calls that set a
    margin. *)
Definition stores (c : Call) : bool :=
  match c with
  | SetProperty _ _ => true
  | _ => false
  end.

Definition sets_margin (c : Call) : bool :=
  match c with
  | SetMarginTop _ | SetMarginBottom _ | SetMarginLeft _ | SetMarginRight _ => true
  | _ => false
  end.

(** The records stored under a key. *)
Definition stored_under (key : string) (props : list (string * Settings.t))
  : list (string * Settings.t) :=
  filter (fun kv => fst kv =? key) props.

(** The margin settings a request carries. *)
Definition sentMargins (r : Request) : option MarginSettings.t :=
  match r with
  | CallApplyCustomPageSize _ _ _ _ _ ms => Some ms
  | CallApplyPageSettings _ _ _ _ ms => Some ms
  | _ => None
  end.

(** The prompt of [showCurrentMargins] for a body, given the six texts
    [toFixed(2)] produced. *)
Definition pagePrompt (numberToString : float -> string)
           (width height top bottom left right : string) (b : Body) : string :=
  "Page Size: " ++ width ++ DQUOTE ++ " × " ++ height ++ DQUOTE ++ " (" ++
  numberToString (pageWidth b) ++ " × " ++
  numberToString (pageHeight b) ++ " pts)" ++ NEWLINE ++ NEWLINE ++
  "Margins:" ++ NEWLINE ++
  "Top: " ++ top ++ DQUOTE ++ " (" ++
  numberToString (marginTop b) ++ " pts)" ++ NEWLINE ++
  "Bottom: " ++ bottom ++ DQUOTE ++ " (" ++
  numberToString (marginBottom b) ++ " pts)" ++ NEWLINE ++
  "Left: " ++ left ++ DQUOTE ++ " (" ++
  numberToString (marginLeft b) ++ " pts)" ++ NEWLINE ++
  "Right: " ++ right ++ DQUOTE ++ " (" ++
  numberToString (marginRight b) ++ " pts)".

(** The inch values of a named margin variant written with two decimals,
    as the dialog labels them. *)
Definition namedMarginTexts (type : string)
  : option (string * string * string * string) :=
  if type =? "default" then Some ("1.00", "1.00", "1.00", "1.00")
  else if type =? "narrow" then Some ("0.50", "0.50", "0.50", "0.50")
  else if type =? "wide" then Some ("1.25", "1.25", "1.25", "1.25")
  else if type =? "mirrored" then Some ("1.00", "1.00", "1.25", "0.75")
  else None.

(** *** Arguments that are not Numbers *)

(** The functions above take their arguments at the types the script
    documents: a String size name, Number dimensions.  A caller can hand
    [applyCustomPageSize] any primitive; what its test (src 446-448) and
    its return expression (src 472-473) do with one follows. *)
Inductive Primitive :=
| PUndefined
| PNull
| PBoolean (b : bool)
| PNumber (x : float)
| PString (s : string).

(** The characters a numeric string can hold: white space, digits, signs,
    the point, the exponent mark, the letters of [Infinity], of the radix
    prefixes and of the hexadecimal digits, and every byte of a character
    that is not ASCII (some are white space). *)
Definition NUMERIC_CHARS : string := "0123456789+-.eEInfityxXoObBaAcCdDfF".

Definition numericChar (c : ascii) : bool :=
  let n := nat_of_ascii c in
  (Nat.leb 9 n && Nat.leb n 13) || Nat.eqb n 32 || Nat.leb 128 n
  || existsb (Ascii.eqb c) (list_ascii_of_string NUMERIC_CHARS).

Fixpoint everyChar (p : ascii -> bool) (s : string) : bool :=
  match s with
  | EmptyString => true
  | String c rest => p c && everyChar p rest
  end.

(** A Number is a finite number when it is neither NaN nor an infinity; no
    other primitive is a number. *)
Definition finiteNumber (v : Primitive) : bool :=
  match v with
  | PNumber x => is_finite x
  | _ => false
  end.

(** ToBoolean. *)
Definition toBoolean (v : Primitive) : bool :=
  match v with
  | PUndefined | PNull => false
  | PBoolean b => b
  | PNumber x => truthy x
  | PString s => truthy_string s
  end.

Section Primitives.

(** String-to-number conversion of a string made of numeric characters is
    the engine's; a string with any other character converts to NaN. *)
Variable parseNumeric : string -> float.

Definition stringToNumber (s : string) : float :=
  if everyChar numericChar s then parseNumeric s else nan.

(** ToNumber. *)
Definition toNumberOf (v : Primitive) : float :=
  match v with
  | PUndefined => nan
  | PNull => 0
  | PBoolean b => if b then 1 else 0
  | PNumber x => x
  | PString s => stringToNumber s
  end.

(** The test of [applyCustomPageSize]: [!] is ToBoolean negated, and a
    comparison with a Number converts the other side with ToNumber. *)
Definition rejectsDimensions (widthInches heightInches : Primitive) : bool :=
  negb (toBoolean widthInches) || negb (toBoolean heightInches)
  || js_lt (toNumberOf widthInches) MIN_WIDTH
  || js_gt (toNumberOf widthInches) MAX_WIDTH
  || js_lt (toNumberOf heightInches) MIN_HEIGHT
  || js_gt (toNumberOf heightInches) MAX_HEIGHT.

End Primitives.

(** [v.toFixed(2)] in the return expression: a Number has the method;
    reading it from [undefined] or [null] throws a TypeError, and so does
    calling what a Boolean or a String has under that name, nothing.  The
    text is the one the engine (V8) gives the error, [name] being the
    expression read. *)
Definition toFixedOf (toFixed2 : float -> string) (name : string) (v : Primitive)
  : string + string :=
  match v with
  | PNumber x => inl (toFixed2 x)
  | PUndefined =>
      inr "TypeError: Cannot read properties of undefined (reading 'toFixed')"
  | PNull =>
      inr "TypeError: Cannot read properties of null (reading 'toFixed')"
  | PBoolean _ | PString _ =>
      inr ("TypeError: " ++ name ++ ".toFixed is not a function")
  end.

(** The return expression of [applyCustomPageSize], evaluated left to
    right: the message, or the text of the error it throws. *)
Definition customReturn (toFixed2 : float -> string)
           (widthInches heightInches : Primitive)
           (bookType paperType inkType : string) : string + string :=
  match toFixedOf toFixed2 "widthInches" widthInches with
  | inr error => inr error
  | inl width =>
      match toFixedOf toFixed2 "heightInches" heightInches with
      | inr error => inr error
      | inl height =>
          inl ("Custom page size set to " ++ width ++ DQUOTE ++ " × " ++
               height ++ DQUOTE ++ " as " ++ bookType ++ " with " ++ paperType ++
               " paper and " ++ inkType ++ " ink.")
      end
  end.

(** That validation let a pair of Numbers through: the reply is not the
    validation message, the run went on to the host, whose first call is
    [getActiveDocument], and when no host call throws the page has the two
    numbers times 72 as its width and height and the reply reports them. *)
Definition proceeds (rt : Runtime) (widthInches heightInches : float)
           (bookType paperType inkType : string) (ms : MarginSettings.t)
           (world : World) : Prop :=
  let run := applyCustomPageSize rt widthInches heightInches
                                 bookType paperType inkType ms world in
  fst run <> InvalidDimensions
  /\ (exists later,
        journal (snd run) = (journal world ++ GetActiveDocument :: later)%list)
  /\ (quiet rt ->
      fst run = CustomPageSizeSet widthInches heightInches bookType paperType inkType
      /\ pageWidth (body (snd run)) = (widthInches * POINTS_PER_INCH)%float
      /\ pageHeight (body (snd run)) = (heightInches * POINTS_PER_INCH)%float).

(** The dimension policy, on the numbers the two values denote. *)
Definition policy (widthInches heightInches : float) : Prop :=
  is_finite widthInches = true /\ is_finite heightInches = true
  /\ (4 <= value widthInches <= 17 # 2)%Q
  /\ (6 <= value heightInches <= 1169 # 100)%Q.

(** The entry a size name selects: the KDP table's when it owns the name,
    else the common table's. *)
Definition tableEntry (sizeName : string) : option Size.t :=
  match own KDP_SIZES sizeName with
  | Some s => Some s
  | None => own COMMON_SIZES sizeName
  end.

(** * Properties *)

(** ** Computations *)

Lemma invokeAll_app rt cs ds w :
  invokeAll rt (cs ++ ds) w = bind (invokeAll rt cs) (fun _ => invokeAll rt ds) w.
Proof.
  revert w. induction cs as [|c cs IH]; intros w; simpl.
  - reflexivity.
  - unfold bind in IH |- *.
    destruct (invoke rt c w) as [[[]|e] w']; [apply IH | reflexivity].
Qed.

Lemma applyMargins_plan rt ms w :
  applyMargins rt ms w = invokeAll rt (marginPlan ms) w.
Proof.
  unfold applyMargins, marginPlan.
  repeat match goal with |- context [if ?b then _ else _] => destruct b end;
    cbn [invokeAll]; unfold bind;
    repeat match goal with
      | |- context [invoke rt ?c ?w] => destruct (invoke rt c w) as [[[]|?] ?]
      end; reflexivity.
Qed.

Lemma invokeAll_quiet rt cs w :
  quiet rt -> invokeAll rt cs w = (inl tt, effects cs w).
Proof.
  intros Q. revert w. induction cs as [|c cs IH]; intros w; simpl.
  - reflexivity.
  - unfold bind, invoke. rewrite Q. apply IH.
Qed.

Lemma invokeAll_done rt cs w w' :
  invokeAll rt cs w = (inl tt, w') -> w' = effects cs w.
Proof.
  revert w. induction cs as [|c cs IH]; intros w; simpl.
  - unfold ret. congruence.
  - unfold bind, invoke. destruct (throws rt w c); [discriminate | apply IH].
Qed.

(** A run that throws was stopped by the host. *)
Lemma invokeAll_thrown rt cs w e w' :
  invokeAll rt cs w = (inr e, w') -> exists text, e = HostFailure text.
Proof.
  revert w. induction cs as [|c cs IH]; intros w; simpl.
  - unfold ret. discriminate.
  - unfold bind, invoke. destruct (throws rt w c) as [text|].
    + intros [= <- _]. now exists text.
    + apply IH.
Qed.

(** The journal only grows, by the calls of the plan made so far. *)
Lemma invokeAll_journal rt cs w :
  exists made rest,
    cs = (made ++ rest)%list /\
    journal (snd (invokeAll rt cs w)) = (journal w ++ made)%list /\
    (forall u, fst (invokeAll rt cs w) = inl u -> rest = []).
Proof.
  revert w. induction cs as [|c cs IH]; intros w; simpl.
  - exists [], []. repeat split. now rewrite app_nil_r.
  - unfold bind, invoke. destruct (throws rt w c) as [text|].
    + exists [c], cs. repeat split. discriminate.
    + destruct (IH (perform c (record c w))) as (made & rest & -> & J & F).
      exists (c :: made), rest. repeat split.
      * rewrite J. destruct c; simpl; now rewrite <- app_assoc.
      * exact F.
Qed.

Lemma bind_invoke {B} rt c (k : unit -> M B) w :
  bind (invoke rt c) k w =
  match throws rt w c with
  | Some text => (inr (HostFailure text), record c w)
  | None => k tt (perform c (record c w))
  end.
Proof. unfold bind, invoke. now destruct (throws rt w c). Qed.

Lemma bind_assoc {A B C} (m : M A) (k : A -> M B) (k' : B -> M C) w :
  bind (bind m k) k' w = bind m (fun a => bind (k a) k') w.
Proof. unfold bind. now destruct (m w) as [[a|e] w']. Qed.

Lemma bind_ret {A B} (a : A) (k : A -> M B) w : bind (ret a) k w = k a w.
Proof. reflexivity. Qed.

Ltac host_step rt :=
  cbn [invokeAll app]; rewrite ?bind_assoc, ?bind_ret, ?bind_invoke;
  match goal with
  | |- context [match throws rt ?w ?c with _ => _ end] =>
      destruct (throws rt w c)
  end; cbn beta iota; try reflexivity.

Ltac split_margins :=
  unfold applyMargins, marginPlan;
  repeat match goal with
    | |- context [if truthy_type ?t then _ else _] => destruct (truthy_type t)
    | |- context [if type_is ?t ?l then _ else _] => destruct (type_is t l)
    end.

Lemma applyPageSettings_run rt sizeName bookType paperType inkType ms w :
  applyPageSettings rt sizeName bookType paperType inkType ms w =
  match dimensionsOf sizeName with
  | inl (wi, hi) =>
      conclude "applyPageSettings"
               (PageSizeSet sizeName wi hi bookType paperType inkType)
               (invokeAll rt (pagePlan rt sizeName wi hi bookType paperType inkType ms) w)
  | inr e =>
      (Caught e,
       record (LoggerLog ("Error in applyPageSettings: " ++ errorToString e)) w)
  end.
Proof.
  assert (run : forall wi hi,
    try_catch
      (bind (ret (wi, hi)) (fun dims =>
      bind (invoke rt GetActiveDocument) (fun _ =>
      bind (invoke rt GetBody) (fun _ =>
      bind (invoke rt (SetPageWidth (js_mul (fst dims) POINTS_PER_INCH))) (fun _ =>
      bind (invoke rt (SetPageHeight (js_mul (snd dims) POINTS_PER_INCH))) (fun _ =>
      bind (invoke rt (SetBackgroundColor
                         (if paperType =? "cream" then COLOR_CREAM else COLOR_WHITE))) (fun _ =>
      bind (applyMargins rt ms) (fun _ =>
      bind (saveDocumentSettings rt sizeName (fst dims) (snd dims) bookType paperType inkType)
           (fun _ => ret (PageSizeSet sizeName (fst dims) (snd dims)
                                      bookType paperType inkType))))))))))
      (fun error w =>
         let (_, w') :=
           log ("Error in applyPageSettings: " ++ errorToString error) w in
         (Caught error, w')) w
    = conclude "applyPageSettings"
               (PageSizeSet sizeName wi hi bookType paperType inkType)
               (invokeAll rt (pagePlan rt sizeName wi hi bookType paperType inkType ms) w)).
  { intros wi hi. unfold try_catch, conclude, pagePlan, saveDocumentSettings, log.
    rewrite bind_ret. cbn [fst snd].
    split_margins; repeat host_step rt. }
  unfold applyPageSettings, dimensionsOf.
  destruct (getProperty KDP_SIZES sizeName) as [s| |];
    cbn [truthy_property readWidth readHeight].
  - rewrite <- run. reflexivity.
  - rewrite <- run. reflexivity.
  - destruct (getProperty COMMON_SIZES sizeName) as [s| |];
      cbn [truthy_property readWidth readHeight].
    + rewrite <- run. reflexivity.
    + rewrite <- run. reflexivity.
    + reflexivity.
Qed.

Lemma applyCustomPageSize_run rt widthInches heightInches bookType paperType inkType ms w :
  applyCustomPageSize rt widthInches heightInches bookType paperType inkType ms w =
  if js_not widthInches || js_not heightInches
     || js_lt widthInches MIN_WIDTH || js_gt widthInches MAX_WIDTH
     || js_lt heightInches MIN_HEIGHT || js_gt heightInches MAX_HEIGHT
  then (InvalidDimensions, w)
  else
    conclude "applyCustomPageSize"
             (CustomPageSizeSet widthInches heightInches bookType paperType inkType)
             (invokeAll rt (pagePlan rt "Custom" (Num widthInches) (Num heightInches)
                                     bookType paperType inkType ms) w).
Proof.
  unfold applyCustomPageSize.
  destruct (js_not widthInches || js_not heightInches
            || js_lt widthInches MIN_WIDTH || js_gt widthInches MAX_WIDTH
            || js_lt heightInches MIN_HEIGHT || js_gt heightInches MAX_HEIGHT).
  - reflexivity.
  - unfold try_catch, conclude, pagePlan, saveDocumentSettings, log.
    split_margins; repeat host_step rt.
Qed.

(** ** Numbers *)

Lemma SFcompare_antisym (x y : spec_float) :
  SFcompare y x = option_map CompOpp (SFcompare x y).
Proof.
  destruct x as [s|s| |s m e], y as [s'|s'| |s' m' e']; simpl;
    try destruct s; try destruct s'; simpl; try reflexivity.
  - rewrite (Z.compare_antisym e e').
    destruct (e ?= e')%Z; simpl; try reflexivity.
    pose proof (Pos.compare_cont_antisym m m' Eq) as A; simpl in A.
    rewrite <- A. now destruct (Pos.compare_cont Eq m m').
  - rewrite (Z.compare_antisym e e').
    destruct (e ?= e')%Z; simpl; try reflexivity.
    pose proof (Pos.compare_cont_antisym m m' Eq) as A; simpl in A.
    now rewrite <- A.
Qed.

Lemma SFcompare_refl (x : spec_float) :
  SFcompare x x = match x with S754_nan => None | _ => Some Eq end.
Proof.
  destruct x as [s|s| |s m e]; simpl; try destruct s; try reflexivity;
    now rewrite Z.compare_refl, Pos.compare_cont_refl.
Qed.

Lemma is_nan_spec (x : float) :
  is_nan x = match Prim2SF x with S754_nan => true | _ => false end.
Proof.
  unfold is_nan. rewrite eqb_spec. unfold SFeqb. rewrite SFcompare_refl.
  now destruct (Prim2SF x).
Qed.

(** The test the code makes on one dimension is the negation of "finite and
    within the bounds", for any positive lower bound and finite upper bound. *)
Lemma bound_check (lo hi x : float) ml el sh mh eh :
  Prim2SF lo = S754_finite false ml el ->
  Prim2SF hi = S754_finite sh mh eh ->
  js_not x || js_lt x lo || js_gt x hi = negb (is_finite x && within lo hi x).
Proof.
  intros Hlo Hhi.
  unfold js_not, truthy, js_lt, js_gt, within, is_finite, is_zero, is_infinity.
  rewrite is_nan_spec, !eqb_spec, !ltb_spec, !leb_spec, abs_spec, Hlo, Hhi.
  change (Prim2SF zero) with (S754_zero false).
  change (Prim2SF infinity) with (S754_infinity false).
  unfold SFeqb, SFltb, SFleb.
  rewrite (SFcompare_antisym (Prim2SF x) (S754_finite false ml el)).
  rewrite (SFcompare_antisym (Prim2SF x) (S754_finite sh mh eh)).
  destruct (Prim2SF x) as [s|s| |s m e];
    try (destruct s; reflexivity); try reflexivity.
  assert (F : exists c,
    SFcompare (S754_finite s m e) (S754_finite sh mh eh) = Some c).
  { simpl. eauto. }
  destruct F as [c ->].
  assert (G : exists c,
    SFcompare (S754_finite s m e) (S754_finite false ml el) = Some c).
  { simpl. eauto. }
  destruct G as [c' ->].
  cbn [SFabs SFcompare option_map].
  destruct s, c, c'; reflexivity.
Qed.

Lemma validation_test (w h : float) :
  js_not w || js_not h
  || js_lt w MIN_WIDTH || js_gt w MAX_WIDTH
  || js_lt h MIN_HEIGHT || js_gt h MAX_HEIGHT
  = negb (acceptable w h).
Proof.
  unfold acceptable.
  pose proof (bound_check MIN_WIDTH MAX_WIDTH w _ _ _ _ _ eq_refl eq_refl) as W.
  pose proof (bound_check MIN_HEIGHT MAX_HEIGHT h _ _ _ _ _ eq_refl eq_refl) as H.
  rewrite !negb_andb in *. rewrite <- !orb_assoc in *.
  destruct (js_not w), (js_not h), (js_lt w MIN_WIDTH), (js_gt w MAX_WIDTH),
    (js_lt h MIN_HEIGHT), (js_gt h MAX_HEIGHT); cbn in *;
    destruct (is_finite w), (is_finite h),
      (within MIN_WIDTH MAX_WIDTH w), (within MIN_HEIGHT MAX_HEIGHT h);
    cbn in *; congruence.
Qed.

(** ** The numbers behind binary64 values *)

Lemma digits2_size m : digits2_pos m = Pos.size m.
Proof. induction m; simpl; congruence. Qed.

(** What being a binary64 value means for the mantissa and the exponent. *)
Lemma bounded_facts m e :
  bounded prec emax m e = true ->
  (-1074 <= e)%Z /\ (Zpos m < 2 ^ 53)%Z /\ ((-1074 < e)%Z -> (2 ^ 52 <= Zpos m)%Z).
Proof.
  unfold bounded, canonical_mantissa, fexp, emin, prec, emax.
  rewrite andb_true_iff, Z.eqb_eq, Z.leb_le, digits2_size.
  intros [C _].
  pose proof (Pos.size_gt m) as G. pose proof (Pos.size_le m) as L.
  apply Pos2Z.pos_lt_pos in G. apply Pos2Z.pos_le_pos in L.
  rewrite Pos2Z.inj_pow in G, L.
  change (Z.pos m~0) with (2 * Z.pos m)%Z in L.
  set (d := Z.pos (Pos.size m)) in *.
  assert (0 < d)%Z by (subst d; lia).
  split; [lia|]. split.
  - assert (d <= 53)%Z by lia.
    apply Z.lt_le_trans with (2 ^ d)%Z; [exact G|].
    apply Z.pow_le_mono_r; lia.
  - intros E. assert (d = 53)%Z by lia.
    replace d with 53%Z in L by lia.
    change (2 ^ 53)%Z with (2 * 2 ^ 52)%Z in L. lia.
Qed.

(** Between two binary64 mantissa-exponent pairs, the smaller exponent
    gives the smaller number. *)
Lemma smaller_exponent m1 e1 m2 e2 :
  bounded prec emax m1 e1 = true -> bounded prec emax m2 e2 = true ->
  (e1 < e2)%Z ->
  (Zpos m1 * 2 ^ (e1 + 1074) < Zpos m2 * 2 ^ (e2 + 1074))%Z.
Proof.
  intros B1 B2 L.
  destruct (bounded_facts _ _ B1) as (E1 & U1 & _).
  destruct (bounded_facts _ _ B2) as (E2 & _ & N2).
  specialize (N2 ltac:(lia)).
  replace (e2 + 1074)%Z with ((e2 - e1 - 1) + 1 + (e1 + 1074))%Z by lia.
  rewrite (Z.pow_add_r 2 (e2 - e1 - 1 + 1) (e1 + 1074)) by lia.
  rewrite (Z.pow_add_r 2 (e2 - e1 - 1) 1) by lia.
  assert (0 < 2 ^ (e1 + 1074))%Z by (apply Z.pow_pos_nonneg; lia).
  assert (1 <= 2 ^ (e2 - e1 - 1))%Z.
  { change 1%Z with (2 ^ 0)%Z at 1. apply Z.pow_le_mono_r; lia. }
  change (2 ^ 53)%Z with (2 * 2 ^ 52)%Z in U1. change (2 ^ 1)%Z with 2%Z.
  set (P := (2 ^ (e1 + 1074))%Z) in *. set (R := (2 ^ (e2 - e1 - 1))%Z) in *.
  set (T := (2 ^ 52)%Z) in *.
  assert (Zpos m1 * P < 2 * T * P)%Z by (apply Z.mul_lt_mono_pos_r; lia).
  assert (T * P <= Zpos m2 * P)%Z by (apply Z.mul_le_mono_nonneg_r; lia).
  assert (Zpos m2 * P * 1 <= Zpos m2 * P * R)%Z
    by (apply Z.mul_le_mono_nonneg_l; [apply Z.mul_nonneg_nonneg|]; lia).
  replace (Zpos m2 * (R * 2 * P))%Z with (2 * (Zpos m2 * P * R))%Z by ring.
  lia.
Qed.

Lemma compare_positive m1 e1 m2 e2 :
  bounded prec emax m1 e1 = true -> bounded prec emax m2 e2 = true ->
  match (e1 ?= e2)%Z with
  | Lt => Lt
  | Gt => Gt
  | Eq => Pos.compare_cont Eq m1 m2
  end = (Zpos m1 * 2 ^ (e1 + 1074) ?= Zpos m2 * 2 ^ (e2 + 1074))%Z.
Proof.
  intros B1 B2. symmetry.
  destruct (Z.compare_spec e1 e2) as [E|L|G].
  - subst e2. destruct (bounded_facts _ _ B1) as (E1 & _ & _).
    assert (0 < 2 ^ (e1 + 1074))%Z by (apply Z.pow_pos_nonneg; lia).
    rewrite <- Zmult_compare_compat_r by lia. reflexivity.
  - apply Z.compare_lt_iff. now apply smaller_exponent.
  - apply Z.compare_gt_iff. now apply smaller_exponent.
Qed.

(** The comparison of two binary64 values that are zero or finite is the
    comparison of the numbers they denote. *)
Lemma SFcompare_scaled x y :
  valid_binary x = true -> valid_binary y = true ->
  finiteSF x = true -> finiteSF y = true ->
  SFcompare x y = Some (scaled x ?= scaled y)%Z.
Proof.
  destruct x as [s|s| |s m e], y as [s'|s'| |s' m' e']; try discriminate;
    cbn [valid_binary finiteSF scaled SFcompare]; intros B1 B2 _ _.
  - reflexivity.
  - destruct (bounded_facts _ _ B2) as (E & _ & _).
    assert (0 < Zpos m' * 2 ^ (e' + 1074))%Z
      by (apply Z.mul_pos_pos; [lia | apply Z.pow_pos_nonneg; lia]).
    f_equal. symmetry. destruct s'; cbn [cond_Zopp].
    + apply Z.compare_gt_iff. lia.
    + apply Z.compare_lt_iff. lia.
  - destruct (bounded_facts _ _ B1) as (E & _ & _).
    assert (0 < Zpos m * 2 ^ (e + 1074))%Z
      by (apply Z.mul_pos_pos; [lia | apply Z.pow_pos_nonneg; lia]).
    f_equal. symmetry. destruct s; cbn [cond_Zopp].
    + apply Z.compare_lt_iff. lia.
    + apply Z.compare_gt_iff. lia.
  - destruct (bounded_facts _ _ B1) as (E & _ & _).
    destruct (bounded_facts _ _ B2) as (E' & _ & _).
    assert (0 < Zpos m * 2 ^ (e + 1074))%Z
      by (apply Z.mul_pos_pos; [lia | apply Z.pow_pos_nonneg; lia]).
    assert (0 < Zpos m' * 2 ^ (e' + 1074))%Z
      by (apply Z.mul_pos_pos; [lia | apply Z.pow_pos_nonneg; lia]).
    f_equal. destruct s, s'; cbn [cond_Zopp].
    + rewrite Z.compare_opp.
      rewrite <- (compare_positive m' e' m e) by assumption.
      rewrite (Z.compare_antisym e' e).
      destruct (e' ?= e)%Z; cbn [CompOpp]; try reflexivity.
      exact (Pos.compare_cont_antisym m m' Eq).
    + symmetry. apply Z.compare_lt_iff. lia.
    + symmetry. apply Z.compare_gt_iff. lia.
    + now apply compare_positive.
Qed.

(** The next binary64 value above a positive one is one unit in the last
    place away: nothing lies strictly between. *)
Lemma no_value_between md ed x :
  bounded prec emax md ed = true ->
  valid_binary x = true -> finiteSF x = true ->
  (Zpos md * 2 ^ (ed + 1074) < scaled x)%Z ->
  ((Zpos md + 1) * 2 ^ (ed + 1074) <= scaled x)%Z.
Proof.
  intros Bd Bx Fx L.
  destruct (bounded_facts _ _ Bd) as (Ed & Ud & _).
  assert (0 < 2 ^ (ed + 1074))%Z as Pd by (apply Z.pow_pos_nonneg; lia).
  assert (0 < Zpos md * 2 ^ (ed + 1074))%Z by (apply Z.mul_pos_pos; lia).
  destruct x as [s|s| |s m e]; try discriminate; cbn [scaled] in *; [lia|].
  cbn [valid_binary] in Bx.
  destruct (bounded_facts _ _ Bx) as (Ex & _ & Nx).
  assert (0 < 2 ^ (e + 1074))%Z as Px by (apply Z.pow_pos_nonneg; lia).
  assert (0 < Zpos m * 2 ^ (e + 1074))%Z by (apply Z.mul_pos_pos; lia).
  destruct s; cbn [cond_Zopp] in *; [lia|].
  destruct (Z.lt_trichotomy e ed) as [Lt|[Eq|Gt]].
  - pose proof (smaller_exponent m e md ed Bx Bd Lt). lia.
  - subst e. apply Z.mul_lt_mono_pos_r in L; [|assumption].
    apply Z.mul_le_mono_nonneg_r; lia.
  - specialize (Nx ltac:(lia)).
    replace (e + 1074)%Z with ((e - ed - 1) + 1 + (ed + 1074))%Z by lia.
    rewrite (Z.pow_add_r 2 (e - ed - 1 + 1) (ed + 1074)) by lia.
    rewrite (Z.pow_add_r 2 (e - ed - 1) 1) by lia.
    assert (1 <= 2 ^ (e - ed - 1))%Z.
    { change 1%Z with (2 ^ 0)%Z at 1. apply Z.pow_le_mono_r; lia. }
    change (2 ^ 53)%Z with (2 * 2 ^ 52)%Z in Ud. change (2 ^ 1)%Z with 2%Z.
    set (P := (2 ^ (ed + 1074))%Z) in *. set (R := (2 ^ (e - ed - 1))%Z) in *.
    set (T := (2 ^ 52)%Z) in *.
    assert ((Zpos md + 1) * P <= 2 * T * P)%Z
      by (apply Z.mul_le_mono_nonneg_r; lia).
    assert (T * P <= Zpos m * P)%Z by (apply Z.mul_le_mono_nonneg_r; lia).
    assert (Zpos m * P * 1 <= Zpos m * P * R)%Z
      by (apply Z.mul_le_mono_nonneg_l; [apply Z.mul_nonneg_nonneg|]; lia).
    replace (Zpos m * (R * 2 * P))%Z with (2 * (Zpos m * P * R))%Z by ring.
    lia.
Qed.

Lemma value_scaled x :
  valid_binary x = true ->
  (valueSF x * inject_Z (2 ^ 1074) == inject_Z (scaled x))%Q.
Proof.
  destruct x as [s|s| |s m e]; cbn [valueSF scaled valid_binary]; intros B;
    try (rewrite Qmult_0_l; reflexivity).
  destruct (bounded_facts _ _ B) as (E & _ & _).
  replace (cond_Zopp s (Zpos m * 2 ^ (e + 1074)))%Z
    with (cond_Zopp s (Zpos m) * 2 ^ (e + 1074))%Z
    by (destruct s; cbn [cond_Zopp]; ring).
  rewrite inject_Z_mult, !Zpower_Qpower by lia.
  rewrite <- Qmult_assoc, <- Qpower_plus by discriminate.
  reflexivity.
Qed.

Lemma Qle_scaled x (n : Z) (d : positive) :
  valid_binary x = true ->
  ((valueSF x <= n # d)%Q <-> (scaled x * Zpos d <= n * 2 ^ 1074)%Z)
  /\ ((n # d <= valueSF x)%Q <-> (n * 2 ^ 1074 <= scaled x * Zpos d)%Z).
Proof.
  intros V. pose proof (value_scaled x V) as S.
  assert (P : (0 < 2 ^ 1074)%Z) by now apply Z.pow_pos_nonneg.
  set (D := (2 ^ 1074)%Z) in *. clearbody D.
  assert (PQ : (0 < inject_Z D)%Q) by now rewrite <- (Zlt_Qlt 0).
  assert (N : ((n # d) * inject_Z D == (n * D # d))%Q).
  { unfold Qeq, Qmult, inject_Z, Qnum, Qden. now rewrite Pos.mul_1_r. }
  split.
  - rewrite <- (Qmult_le_r _ _ _ PQ), S, N.
    unfold Qle, inject_Z, Qnum, Qden. rewrite Z.mul_1_r. reflexivity.
  - rewrite <- (Qmult_le_r _ _ _ PQ), S, N.
    unfold Qle, inject_Z, Qnum, Qden. rewrite Z.mul_1_r. reflexivity.
Qed.

Lemma is_finite_spec (x : float) : is_finite x = finiteSF (Prim2SF x).
Proof.
  unfold is_finite, is_infinity.
  rewrite is_nan_spec, eqb_spec, abs_spec.
  change (Prim2SF infinity) with (S754_infinity false).
  destruct (Prim2SF x) as [s|s| |s m e]; try reflexivity; now destruct s.
Qed.

(** On finite numbers [<=] is the order of the numbers denoted. *)
Lemma leb_scaled (a b : float) :
  is_finite a = true -> is_finite b = true ->
  (a <=? b)%float = (scaled (Prim2SF a) <=? scaled (Prim2SF b))%Z.
Proof.
  rewrite !is_finite_spec, leb_spec. intros Fa Fb. unfold SFleb.
  rewrite (SFcompare_scaled _ _ (Prim2SF_valid a) (Prim2SF_valid b) Fa Fb).
  unfold Z.leb. now destruct (scaled (Prim2SF a) ?= scaled (Prim2SF b))%Z.
Qed.

Lemma width_bounds_value (w : float) :
  is_finite w = true ->
  (within MIN_WIDTH MAX_WIDTH w = true <-> (4 <= value w <= 17 # 2)%Q).
Proof.
  intros F. unfold within, value.
  rewrite !leb_scaled, andb_true_iff, !Z.leb_le by (assumption || reflexivity).
  destruct (Qle_scaled (Prim2SF w) 4 1 (Prim2SF_valid w)) as [_ ->].
  destruct (Qle_scaled (Prim2SF w) 17 2 (Prim2SF_valid w)) as [-> _].
  assert (L : scaled (Prim2SF MIN_WIDTH) = (4 * 2 ^ 1074)%Z)
    by (vm_compute; reflexivity).
  assert (U : (scaled (Prim2SF MAX_WIDTH) * 2 = 17 * 2 ^ 1074)%Z)
    by (vm_compute; reflexivity).
  set (D := (2 ^ 1074)%Z) in *. clearbody D.
  set (lo := scaled (Prim2SF MIN_WIDTH)) in *. clearbody lo.
  set (hi := scaled (Prim2SF MAX_WIDTH)) in *. clearbody hi.
  lia.
Qed.

Lemma height_bounds_value (h : float) :
  is_finite h = true ->
  (within MIN_HEIGHT MAX_HEIGHT h = true <-> (6 <= value h <= 1169 # 100)%Q).
Proof.
  intros F. unfold within, value.
  rewrite !leb_scaled, andb_true_iff, !Z.leb_le by (assumption || reflexivity).
  destruct (Qle_scaled (Prim2SF h) 6 1 (Prim2SF_valid h)) as [_ ->].
  destruct (Qle_scaled (Prim2SF h) 1169 100 (Prim2SF_valid h)) as [-> _].
  assert (L : scaled (Prim2SF MIN_HEIGHT) = (6 * 2 ^ 1074)%Z)
    by (vm_compute; reflexivity).
  (* 11.69 is not a binary64 value: MAX_HEIGHT is the one just below it *)
  assert (U : (scaled (Prim2SF MAX_HEIGHT) * 100 <= 1169 * 2 ^ 1074)%Z)
    by (vm_compute; discriminate).
  assert (N : (1169 * 2 ^ 1074
               < (6580884955495137 + 1) * 2 ^ (-49 + 1074) * 100)%Z)
    by (vm_compute; reflexivity).
  assert (G : (6580884955495137 * 2 ^ (-49 + 1074) < scaled (Prim2SF h) ->
               (6580884955495137 + 1) * 2 ^ (-49 + 1074) <= scaled (Prim2SF h))%Z).
  { apply no_value_between;
      [reflexivity | apply Prim2SF_valid | now rewrite <- is_finite_spec]. }
  assert (E : scaled (Prim2SF MAX_HEIGHT) = (6580884955495137 * 2 ^ (-49 + 1074))%Z)
    by reflexivity.
  set (D := (2 ^ 1074)%Z) in *. clearbody D.
  set (P := (2 ^ (-49 + 1074))%Z) in *. clearbody P.
  set (lo := scaled (Prim2SF MIN_HEIGHT)) in *. clearbody lo.
  set (hi := scaled (Prim2SF MAX_HEIGHT)) in *. clearbody hi.
  set (x := scaled (Prim2SF h)) in *. clearbody x.
  lia.
Qed.

Lemma quiet_obliging stamp : quiet (obliging stamp).
Proof. intros w c. reflexivity. Qed.

Lemma conclude_not_invalid fn success r :
  success <> InvalidDimensions -> fst (conclude fn success r) <> InvalidDimensions.
Proof. destruct r as [[u|e] w]; simpl; [auto | discriminate]. Qed.

Lemma reply_invalid_iff rt w h bt pt it ms world :
  fst (applyCustomPageSize rt w h bt pt it ms world) = InvalidDimensions
  <-> acceptable w h = false.
Proof.
  rewrite applyCustomPageSize_run, validation_test.
  destruct (acceptable w h); simpl.
  - split; [|discriminate]. intros E. exfalso. revert E.
    apply conclude_not_invalid. discriminate.
  - tauto.
Qed.

Lemma rejected_run rt w h bt pt it ms world :
  acceptable w h = false ->
  applyCustomPageSize rt w h bt pt it ms world = (InvalidDimensions, world).
Proof.
  intros A. rewrite applyCustomPageSize_run, validation_test, A. reflexivity.
Qed.

Lemma acceptable_spec w h :
  acceptable w h = true <->
  is_finite w = true /\ is_finite h = true /\
  within MIN_WIDTH MAX_WIDTH w = true /\ within MIN_HEIGHT MAX_HEIGHT h = true.
Proof.
  unfold acceptable. rewrite !andb_true_iff. tauto.
Qed.

(** ** The dimension validator *)

(** C8: when the validation of [applyCustomPageSize] fails, the function
    returns the validation message and the world is the one it started
    from: no host call was made, so the page size, the background colour
    and the four margins are untouched. *)
Theorem failed_validation_changes_nothing rt w h bt pt it ms world :
  acceptable w h = false ->
  applyCustomPageSize rt w h bt pt it ms world = (InvalidDimensions, world).
Proof.
  intros A. rewrite applyCustomPageSize_run, validation_test, A. reflexivity.
Qed.

Lemma failed_validation_changes_nothing_witness :
  acceptable 3.9 7 = false /\
  applyCustomPageSize (failing "t" "refused") 3.9 7 "paperback" "white" "black"
                      (named "default") blank
  = (InvalidDimensions, blank).
Proof.
  split; [vm_compute; reflexivity|].
  apply failed_validation_changes_nothing. vm_compute. reflexivity.
Defined.

(** ** Margins *)

Lemma applyMargins_quiet rt ms w :
  quiet rt -> applyMargins rt ms w = (inl tt, effects (marginPlan ms) w).
Proof. intros Q. rewrite applyMargins_plan. now apply invokeAll_quiet. Qed.

Lemma marginPlan_named type t b i o :
  marginPlan (MarginSettings.mk (Some type) t b i o) =
  if type =? "default" then
    [SetMarginTop 72; SetMarginBottom 72; SetMarginLeft 72; SetMarginRight 72]
  else if type =? "narrow" then
    [SetMarginTop 36; SetMarginBottom 36; SetMarginLeft 36; SetMarginRight 36]
  else if type =? "wide" then
    [SetMarginTop 90; SetMarginBottom 90; SetMarginLeft 90; SetMarginRight 90]
  else if type =? "mirrored" then
    [SetMarginTop 72; SetMarginBottom 72; SetMarginLeft 90; SetMarginRight 54]
  else if type =? "" then
    [SetMarginTop (js_mul t POINTS_PER_INCH); SetMarginBottom (js_mul b POINTS_PER_INCH);
     SetMarginLeft (js_mul i POINTS_PER_INCH); SetMarginRight (js_mul o POINTS_PER_INCH)]
  else [].
Proof.
  unfold marginPlan, truthy_type, type_is, truthy_string.
  cbn [MarginSettings.type MarginSettings.top MarginSettings.bottom
       MarginSettings.inside MarginSettings.outside].
  destruct (type =? "default") eqn:D.
  { apply String.eqb_eq in D. subst type. reflexivity. }
  destruct (type =? "narrow") eqn:N.
  { apply String.eqb_eq in N. subst type. reflexivity. }
  destruct (type =? "wide") eqn:W.
  { apply String.eqb_eq in W. subst type. reflexivity. }
  destruct (type =? "mirrored") eqn:R.
  { apply String.eqb_eq in R. subst type. reflexivity. }
  destruct (type =? ""); reflexivity.
Qed.

(** C3: each named margin variant sets the four margins to its fixed
    constants: 1 inch all round for "default", 0.5 inch for "narrow",
    1.25 inch for "wide", and top 1, bottom 1, inside (left) 1.25, outside
    (right) 0.75 inch for "mirrored"; in points, 72, 36, 90 and 54. *)
Theorem named_margins_are_fixed rt t b i o w :
  quiet rt ->
  let after type :=
    margins (body (snd (applyMargins rt (MarginSettings.mk (Some type) t b i o) w))) in
  let inch x := toPoints (Num x) in
  after "default" = (inch 1, inch 1, inch 1, inch 1)%float
  /\ after "narrow" = (inch 0.5, inch 0.5, inch 0.5, inch 0.5)%float
  /\ after "wide" = (inch 1.25, inch 1.25, inch 1.25, inch 1.25)%float
  /\ after "mirrored" = (inch 1, inch 1, inch 1.25, inch 0.75)%float
  /\ (inch 1, inch 0.5, inch 1.25, inch 0.75)%float = (72, 36, 90, 54)%float.
Proof.
  intros Q after inch; subst after inch; cbv beta.
  rewrite !applyMargins_quiet by assumption.
  rewrite !marginPlan_named.
  repeat split; reflexivity.
Qed.

Lemma named_margins_are_fixed_witness :
  quiet (obliging "t") /\
  margins (body (snd (applyMargins (obliging "t") (named "mirrored") blank)))
  = (72, 72, 90, 54)%float.
Proof.
  split; [apply quiet_obliging|].
  exact (proj1 (proj2 (proj2 (proj2
    (named_margins_are_fixed (obliging "t") Undefined Undefined Undefined
                             Undefined blank (quiet_obliging "t")))))).
Defined.

(** C10: when [marginSettings.type] is set (a non-empty string) and is none
    of "default", "narrow", "wide" and "mirrored", [applyMargins] makes no
    host call and leaves the world, hence the four margins, as they were. *)
Theorem unknown_margin_type_changes_nothing rt type t b i o w :
  type <> "" -> type <> "default" -> type <> "narrow" ->
  type <> "wide" -> type <> "mirrored" ->
  applyMargins rt (MarginSettings.mk (Some type) t b i o) w = (inl tt, w).
Proof.
  intros E D N W R.
  rewrite applyMargins_plan, marginPlan_named.
  apply String.eqb_neq in E, D, N, W, R. rewrite E, D, N, W, R. reflexivity.
Qed.

Lemma unknown_margin_type_changes_nothing_witness :
  applyMargins (failing "t" "refused") (named "custom") blank = (inl tt, blank).
Proof.
  apply unknown_margin_type_changes_nothing; discriminate.
Defined.

(** ** Presets and unit conversion *)

Lemma dimensionsOf_kdp sizeName s :
  own KDP_SIZES sizeName = Some s ->
  dimensionsOf sizeName = inl (Num (Size.width s), Num (Size.height s)).
Proof. intros O. unfold dimensionsOf, getProperty. now rewrite O. Qed.

Lemma applyPageSettings_quiet rt sizeName wi hi bt pt it ms w :
  quiet rt -> dimensionsOf sizeName = inl (wi, hi) ->
  applyPageSettings rt sizeName bt pt it ms w =
  (PageSizeSet sizeName wi hi bt pt it,
   effects (pagePlan rt sizeName wi hi bt pt it ms) w).
Proof.
  intros Q D. rewrite applyPageSettings_run, D, invokeAll_quiet by assumption.
  reflexivity.
Qed.

Lemma applyCustomPageSize_quiet rt wi hi bt pt it ms w :
  quiet rt -> acceptable wi hi = true ->
  applyCustomPageSize rt wi hi bt pt it ms w =
  (CustomPageSizeSet wi hi bt pt it,
   effects (pagePlan rt "Custom" (Num wi) (Num hi) bt pt it ms) w).
Proof.
  intros Q A.
  rewrite applyCustomPageSize_run, validation_test, A, invokeAll_quiet by assumption.
  reflexivity.
Qed.

(** The margin calls change neither the page size nor the colour. *)
Lemma pagePlan_size rt sizeName wi hi bt pt it ms w :
  let w' := effects (pagePlan rt sizeName wi hi bt pt it ms) w in
  pageWidth (body w') = js_mul wi POINTS_PER_INCH /\
  pageHeight (body w') = js_mul hi POINTS_PER_INCH /\
  backgroundColor (body w') = (if pt =? "cream" then COLOR_CREAM else COLOR_WHITE) /\
  getProperty_of (properties w') KEY =
    Some (Settings.mk sizeName wi hi bt pt it (now rt)).
Proof.
  unfold pagePlan, marginPlan.
  repeat match goal with
    | |- context [if truthy_type ?t then _ else _] => destruct (truthy_type t)
    | |- context [if type_is ?t ?l then _ else _] => destruct (type_is t l)
    end; repeat split; reflexivity.
Qed.

Lemma marginPlan_resolved ms t b i o :
  resolveMargins ms = Some (t, b, i, o) ->
  marginPlan ms = [SetMarginTop (toPoints t); SetMarginBottom (toPoints b);
                   SetMarginLeft (toPoints i); SetMarginRight (toPoints o)].
Proof.
  destruct ms as [[type|] t0 b0 i0 o0]; unfold resolveMargins;
    cbn [MarginSettings.type MarginSettings.top MarginSettings.bottom
         MarginSettings.inside MarginSettings.outside].
  - rewrite marginPlan_named.
    destruct (type =? "default"); [intros [= <- <- <- <-]; reflexivity|].
    destruct (type =? "narrow"); [intros [= <- <- <- <-]; reflexivity|].
    destruct (type =? "wide"); [intros [= <- <- <- <-]; reflexivity|].
    destruct (type =? "mirrored"); [intros [= <- <- <- <-]; reflexivity|].
    discriminate.
  - intros [= <- <- <- <-]. reflexivity.
Qed.

Lemma pagePlan_body rt sizeName wi hi bt pt it ms t b i o w :
  resolveMargins ms = Some (t, b, i, o) ->
  body (effects (pagePlan rt sizeName wi hi bt pt it ms) w) =
  mkBody (toPoints wi) (toPoints hi)
         (if pt =? "cream" then COLOR_CREAM else COLOR_WHITE)
         (toPoints t) (toPoints b) (toPoints i) (toPoints o).
Proof.
  intros R. unfold pagePlan. rewrite (marginPlan_resolved _ _ _ _ _ R). reflexivity.
Qed.

(** C2: applying a name of the KDP table uses the width and height stored
    under it, unchanged, as the inch values that are converted to points,
    reported and saved.  In particular "Paperback - 6 x 9" with the
    "default" margins gives a page of 6 by 9 inches with four margins of
    1 inch. *)
Theorem preset_dimensions_are_the_table_entry rt sizeName s bt pt it ms w :
  quiet rt ->
  (own KDP_SIZES sizeName = Some s ->
   let (reply, w') := applyPageSettings rt sizeName bt pt it ms w in
   reply = PageSizeSet sizeName (Num (Size.width s)) (Num (Size.height s)) bt pt it
   /\ pageWidth (body w') = (Size.width s * POINTS_PER_INCH)%float
   /\ pageHeight (body w') = (Size.height s * POINTS_PER_INCH)%float
   /\ getProperty_of (properties w') KEY =
        Some (Settings.mk sizeName (Num (Size.width s)) (Num (Size.height s))
                          bt pt it (now rt)))
  /\ (let (reply, w') :=
        applyPageSettings rt "Paperback - 6 x 9" bt pt it (named "default") w in
      reply = PageSizeSet "Paperback - 6 x 9" (Num 6) (Num 9) bt pt it
      /\ pageWidth (body w') = toPoints (Num 6)
      /\ pageHeight (body w') = toPoints (Num 9)
      /\ margins (body w') =
           (toPoints (Num 1), toPoints (Num 1), toPoints (Num 1), toPoints (Num 1))
      /\ (toPoints (Num 6), toPoints (Num 9), toPoints (Num 1))
         = (432, 648, 72)%float).
Proof.
  intros Q. split.
  - intros O.
    rewrite (applyPageSettings_quiet rt sizeName _ _ bt pt it ms w Q
               (dimensionsOf_kdp _ _ O)).
    destruct (pagePlan_size rt sizeName (Num (Size.width s)) (Num (Size.height s))
                bt pt it ms w) as (PW & PH & _ & ST).
    repeat split; assumption.
  - rewrite (applyPageSettings_quiet rt "Paperback - 6 x 9" (Num 6) (Num 9)
               bt pt it (named "default") w Q eq_refl).
    split; [reflexivity|].
    rewrite (pagePlan_body rt _ _ _ bt pt it (named "default")
               (Num 1) (Num 1) (Num 1) (Num 1) w eq_refl).
    repeat split.
Qed.

Lemma preset_dimensions_are_the_table_entry_witness :
  quiet (obliging "t") /\
  own KDP_SIZES "Hardcover - 8.25 x 8.25" = Some (hardcover 8.25 8.25) /\
  pageWidth (body (snd (applyPageSettings (obliging "t") "Hardcover - 8.25 x 8.25"
                          "hardcover" "cream" "black" (named "narrow") blank)))
  = 594%float.
Proof.
  split; [apply quiet_obliging|]. split; [reflexivity|].
  pose proof (proj1 (preset_dimensions_are_the_table_entry
                (obliging "t") "Hardcover - 8.25 x 8.25" (hardcover 8.25 8.25)
                "hardcover" "cream" "black" (named "narrow") blank
                (quiet_obliging "t")) eq_refl) as P.
  destruct (applyPageSettings (obliging "t") "Hardcover - 8.25 x 8.25"
              "hardcover" "cream" "black" (named "narrow") blank) as [reply w'].
  destruct P as (_ & P & _). exact P.
Defined.

(** C7: every length handed to the document is the resolved inch value
    multiplied by the one constant [POINTS_PER_INCH] = 72: the page width
    and height of a custom size and of a table entry, and the four resolved
    margins.  In particular 1 inch is 72 points and 8.5 inches are 612. *)
Theorem lengths_are_inches_times_72 rt bt pt it ms t b i o w :
  quiet rt ->
  resolveMargins ms = Some (t, b, i, o) ->
  let colour := if pt =? "cream" then COLOR_CREAM else COLOR_WHITE in
  (forall wi hi,
      acceptable wi hi = true ->
      body (snd (applyCustomPageSize rt wi hi bt pt it ms w)) =
      mkBody (toPoints (Num wi)) (toPoints (Num hi)) colour
             (toPoints t) (toPoints b) (toPoints i) (toPoints o))
  /\ (forall sizeName wi hi,
         dimensionsOf sizeName = inl (wi, hi) ->
         body (snd (applyPageSettings rt sizeName bt pt it ms w)) =
         mkBody (toPoints wi) (toPoints hi) colour
                (toPoints t) (toPoints b) (toPoints i) (toPoints o))
  /\ POINTS_PER_INCH = 72%float
  /\ toPoints (Num 1) = 72%float
  /\ toPoints (Num 8.5) = 612%float.
Proof.
  intros Q R colour. subst colour. repeat split.
  - intros wi hi A. rewrite applyCustomPageSize_quiet by assumption.
    now apply pagePlan_body.
  - intros sizeName wi hi D.
    rewrite (applyPageSettings_quiet rt sizeName wi hi) by assumption.
    now apply pagePlan_body.
Qed.

Lemma lengths_are_inches_times_72_witness :
  quiet (obliging "t") /\
  resolveMargins (custom 1 1.5 2 0.25) = Some (Num 1, Num 1.5, Num 2, Num 0.25)%float /\
  acceptable 5 8 = true /\
  body (snd (applyCustomPageSize (obliging "t") 5 8 "paperback" "white" "black"
                                 (custom 1 1.5 2 0.25) blank))
  = mkBody 360 576 COLOR_WHITE 72 108 144 18.
Proof.
  split; [apply quiet_obliging|]. split; [reflexivity|].
  split; [vm_compute; reflexivity|].
  apply (proj1 (lengths_are_inches_times_72 (obliging "t") "paperback" "white"
                  "black" (custom 1 1.5 2 0.25) _ _ _ _ blank
                  (quiet_obliging "t") eq_refl)).
  vm_compute. reflexivity.
Defined.

Lemma journal_perform c w :
  journal (perform c (record c w)) = (journal w ++ [c])%list.
Proof. destruct c; reflexivity. Qed.

Lemma journal_grows rt fn success cs w :
  exists later,
    journal (snd (conclude fn success (invokeAll rt cs w))) = (journal w ++ later)%list.
Proof.
  destruct (invokeAll_journal rt cs w) as (made & rest & _ & J & _).
  destruct (invokeAll rt cs w) as [[u|e] w']; simpl in *.
  - now exists made.
  - eexists. rewrite J, <- app_assoc. reflexivity.
Qed.

Lemma journal_after_three rt fn success c1 c2 c3 cs w :
  throws rt w c1 = None ->
  throws rt (perform c1 (record c1 w)) c2 = None ->
  exists later,
    journal (snd (conclude fn success (invokeAll rt (c1 :: c2 :: c3 :: cs) w)))
    = (journal w ++ [c1; c2; c3] ++ later)%list.
Proof.
  intros T1 T2.
  change (invokeAll rt (c1 :: c2 :: c3 :: cs) w)
    with (bind (invoke rt c1) (fun _ =>
          bind (invoke rt c2) (fun _ =>
          bind (invoke rt c3) (fun _ => invokeAll rt cs))) w).
  rewrite bind_invoke, T1, bind_invoke, T2, bind_invoke.
  destruct (throws rt _ c3) as [text|].
  - eexists. cbn [conclude snd]. cbn [record journal].
    rewrite !journal_perform, <- !app_assoc. reflexivity.
  - destruct (journal_grows rt fn success cs
                (perform c3 (record c3
                   (perform c2 (record c2 (perform c1 (record c1 w)))))))
      as [later J].
    exists later. rewrite J, !journal_perform, <- !app_assoc. reflexivity.
Qed.

(** C9: the common size table has the key "Custom" with width 0 and
    height 0, so [applyPageSettings "Custom"] finds an entry: its reply is
    never the lookup TypeError and never the validation message, although
    0 by 0 is outside the policy.  Once the document and its body are
    obtained, the next host call is [setPageWidth(0)]; when no host call
    throws the page is set to 0 by 0 points and the success reply reports
    0 by 0 inches. *)
Theorem custom_key_is_a_table_entry rt bt pt it ms w :
  let run := applyPageSettings rt "Custom" bt pt it ms w in
  own KDP_SIZES "Custom" = None
  /\ own COMMON_SIZES "Custom" = Some (common 0 0)
  /\ acceptable 0 0 = false
  /\ fst run <> InvalidDimensions
  /\ (forall prop, fst run <> Caught (ReadOfUndefined prop))
  /\ (throws rt w GetActiveDocument = None ->
      throws rt (record GetActiveDocument w) GetBody = None ->
      exists later,
        journal (snd run) =
        (journal w ++ [GetActiveDocument; GetBody; SetPageWidth 0] ++ later)%list)
  /\ (quiet rt ->
      fst run = PageSizeSet "Custom" (Num 0) (Num 0) bt pt it
      /\ pageWidth (body (snd run)) = 0%float
      /\ pageHeight (body (snd run)) = 0%float).
Proof.
  intros run. subst run.
  split; [reflexivity|]. split; [reflexivity|]. split; [vm_compute; reflexivity|].
  assert (D : dimensionsOf "Custom" = inl (Num 0, Num 0)) by reflexivity.
  rewrite applyPageSettings_run, D.
  split; [apply conclude_not_invalid; discriminate|].
  split; [|split].
  - intros prop.
    destruct (invokeAll rt _ w) as [[u|e] w'] eqn:E; simpl; [discriminate|].
    apply invokeAll_thrown in E. destruct E as [text ->]. discriminate.
  - intros T1 T2.
    apply (journal_after_three rt "applyPageSettings"
             (PageSizeSet "Custom" (Num 0) (Num 0) bt pt it)
             GetActiveDocument GetBody (SetPageWidth 0)); assumption.
  - intros Q. rewrite invokeAll_quiet by assumption. simpl conclude.
    destruct (pagePlan_size rt "Custom" (Num 0) (Num 0) bt pt it ms w)
      as (PW & PH & _).
    repeat split; assumption.
Qed.

(** ** Errors *)

(** C5, as the code has it: a size name that neither table owns and that
    [Object.prototype] does not provide ends in the [catch] clause with the
    TypeError raised by reading [width] of [undefined].  Nothing but
    [Logger.log] is called, the document and its properties are untouched,
    and the reply is the generic "Error: " followed by the error text. *)
Theorem absent_name_ends_in_catch rt sizeName bt pt it ms w show fixed :
  absent sizeName -> inherited sizeName = false ->
  applyPageSettings rt sizeName bt pt it ms w =
    (Caught (ReadOfUndefined "width"),
     record (LoggerLog ("Error in applyPageSettings: " ++ WIDTH_OF_UNDEFINED)) w)
  /\ message show fixed (fst (applyPageSettings rt sizeName bt pt it ms w))
     = "Error: " ++ WIDTH_OF_UNDEFINED.
Proof.
  intros [K C] I. rewrite applyPageSettings_run.
  unfold dimensionsOf, getProperty. rewrite K, C, I. split; reflexivity.
Qed.

Lemma absent_name_ends_in_catch_witness :
  absent "Folio" /\ inherited "Folio" = false /\
  applyPageSettings (obliging "t") "Folio" "paperback" "white" "black"
                    (named "default") blank
  = (Caught (ReadOfUndefined "width"),
     record (LoggerLog ("Error in applyPageSettings: " ++ WIDTH_OF_UNDEFINED)) blank).
Proof.
  split; [split; reflexivity|]. split; [reflexivity|].
  apply (absent_name_ends_in_catch (obliging "t") "Folio" "paperback" "white"
           "black" (named "default") blank (fun _ => "") (fun _ => "")).
  - split; reflexivity.
  - reflexivity.
Defined.

(** C5 as stated fails.  "toString" is in neither table, yet the lookup
    finds the inherited method: no runtime makes the reply the lookup
    TypeError, and a quiet runtime gives the success reply.  And the reply
    to an absent name is, as a string, the reply to a listed name whose
    host call fails with the same text: the caller cannot tell a lookup
    failure from another error. *)
Lemma absent_name_gets_no_lookup_error :
  absent "toString"
  /\ fst (applyPageSettings (obliging "t") "toString" "paperback" "white" "black"
                            (named "default") blank)
     = PageSizeSet "toString" Undefined Undefined "paperback" "white" "black"
  /\ (forall rt bt pt it ms w prop,
         fst (applyPageSettings rt "toString" bt pt it ms w)
         <> Caught (ReadOfUndefined prop))
  /\ absent "Folio"
  /\ own COMMON_SIZES "Letter" = Some (common 8.5 11)
  /\ (forall show fixed,
         message show fixed
           (fst (applyPageSettings (obliging "t") "Folio" "paperback" "white"
                                   "black" (named "default") blank))
         = message show fixed
             (fst (applyPageSettings (failing "t" WIDTH_OF_UNDEFINED) "Letter"
                                     "paperback" "white" "black"
                                     (named "default") blank))).
Proof.
  split; [split; reflexivity|]. split; [reflexivity|]. split; [|repeat split].
  intros rt bt pt it ms w prop. rewrite applyPageSettings_run.
  change (dimensionsOf "toString") with (@inl _ JsError (Undefined, Undefined)).
  cbv beta iota.
  destruct (invokeAll rt _ w) as [[u|e] w'] eqn:E; simpl; [discriminate|].
  apply invokeAll_thrown in E. destruct E as [text ->]. discriminate.
Qed.

(** C6, as the code has it: whenever the validation fails the reply is the
    one fixed message, which states all four bounds and is the same
    whichever bound was violated or whichever number was missing. *)
Theorem validation_error_is_one_message rt w h bt pt it ms world show fixed :
  acceptable w h = false ->
  message show fixed (fst (applyCustomPageSize rt w h bt pt it ms world))
  = "Error: Invalid dimensions. Width must be between " ++
    show MIN_WIDTH ++ DQUOTE ++ " and " ++ show MAX_WIDTH ++ DQUOTE ++
    ", and height between " ++
    show MIN_HEIGHT ++ DQUOTE ++ " and " ++ show MAX_HEIGHT ++ DQUOTE ++ ".".
Proof.
  intros A. now rewrite rejected_run.
Qed.

Lemma validation_error_is_one_message_witness :
  acceptable nan 7 = false /\
  message (fun _ => "n") (fun _ => "f")
    (fst (applyCustomPageSize (obliging "t") nan 7 "paperback" "white" "black"
                              (named "default") blank))
  = "Error: Invalid dimensions. Width must be between " ++
    "n" ++ DQUOTE ++ " and " ++ "n" ++ DQUOTE ++ ", and height between " ++
    "n" ++ DQUOTE ++ " and " ++ "n" ++ DQUOTE ++ ".".
Proof.
  split; [vm_compute; reflexivity|].
  apply (validation_error_is_one_message (obliging "t") nan 7 "paperback"
           "white" "black" (named "default") blank (fun _ => "n") (fun _ => "f")).
  vm_compute. reflexivity.
Defined.

(** C6 as stated fails: a width below the minimum and a height above the
    maximum, each the only violation, get the same reply and the same text,
    so no reading of the text names the violated bound. *)
Lemma validation_error_names_no_bound :
  violated 3.9 7 = [WidthMin]
  /\ violated 5 11.7 = [HeightMax]
  /\ (forall show fixed,
         message show fixed
           (fst (applyCustomPageSize (obliging "t") 3.9 7 "paperback" "white"
                                     "black" (named "default") blank))
         = message show fixed
             (fst (applyCustomPageSize (obliging "t") 5 11.7 "paperback" "white"
                                       "black" (named "default") blank)))
  /\ ~ error_names_violated_bound.
Proof.
  assert (V1 : violated 3.9 7 = [WidthMin]) by (vm_compute; reflexivity).
  assert (V2 : violated 5 11.7 = [HeightMax]) by (vm_compute; reflexivity).
  assert (A1 : acceptable 3.9 7 = false) by (vm_compute; reflexivity).
  assert (A2 : acceptable 5 11.7 = false) by (vm_compute; reflexivity).
  split; [exact V1|]. split; [exact V2|]. split.
  - intros show fixed.
    now rewrite !rejected_run by assumption.
  - intros [which W].
    pose proof (W (fun _ => "") (fun _ => "") (obliging "t") _ _ "paperback"
                  "white" "black" (named "default") blank _ V1) as E1.
    pose proof (W (fun _ => "") (fun _ => "") (obliging "t") _ _ "paperback"
                  "white" "black" (named "default") blank _ V2) as E2.
    rewrite rejected_run in E1, E2 by assumption.
    simpl fst in E1, E2. congruence.
Qed.

(** ** The ink rule *)

Lemma updateInkOptions_rule d : ink_rule (updateInkOptions d).
Proof.
  unfold updateInkOptions, ink_rule.
  destruct (Dialog.bookType d =? "hardcover") eqn:H; cbn.
  - intros _. split; [|reflexivity].
    destruct (Dialog.inkType d =? "standard") eqn:I.
    + discriminate.
    + now apply String.eqb_neq.
  - apply String.eqb_neq in H. intros E. contradiction.
Qed.

Lemma step_rule d e d' : ink_rule d -> step d e = Some d' -> ink_rule d'.
Proof.
  intros R. destruct e as [v|v|v|v|v|x|x|x|x|x|x]; cbn [step].
  - destruct (offers BOOK_SIZE_OPTIONS v); [|discriminate].
    intros [= <-].
    destruct (prefix "Hardcover" v); [apply updateInkOptions_rule|].
    destruct (prefix "Paperback" v); [apply updateInkOptions_rule|].
    exact R.
  - destruct (offers BOOK_TYPE_OPTIONS v); [|discriminate].
    intros [= <-]. apply updateInkOptions_rule.
  - destruct (offers PAPER_TYPE_OPTIONS v); [|discriminate].
    intros [= <-]. exact R.
  - destruct (offers INK_TYPE_OPTIONS v); [|discriminate]. cbn [andb].
    destruct (v =? "standard") eqn:S; cbn [andb negb].
    + destruct (Dialog.standardDisabled d) eqn:D; [discriminate|].
      intros [= <-] H. cbn in *. destruct (R H) as [_ T]. congruence.
    + intros [= <-] H. cbn in *. destruct (R H) as [_ T].
      split; [now apply String.eqb_neq | exact T].
  - destruct (offers MARGIN_OPTIONS v); [|discriminate].
    intros [= <-]. exact R.
  - intros [= <-]. exact R.
  - intros [= <-]. exact R.
  - intros [= <-]. exact R.
  - intros [= <-]. exact R.
  - intros [= <-]. exact R.
  - intros [= <-]. exact R.
Qed.

Lemma reachable_rule d : reachable d -> ink_rule d.
Proof.
  induction 1 as [|d e d' _ IH S].
  - apply updateInkOptions_rule.
  - exact (step_rule d e d' IH S).
Qed.

Lemma carried_by_applySize d bt it :
  carried (applySize d) = Some (bt, it) ->
  bt = Dialog.bookType d /\ it = Dialog.inkType d.
Proof.
  unfold applySize.
  destruct (Dialog.bookSize d =? "Custom").
  - match goal with |- context [if ?c then _ else _] => destruct c end;
      cbn; [discriminate | now intros [= <- <-]].
  - destruct (truthy_string (Dialog.bookSize d)); cbn;
      [now intros [= <- <-] | discriminate].
Qed.

(** C4, as the code has it: the ink rule is kept by the dialog and by
    nothing else.  Whatever the author does, the request sent by Apply never
    carries book type "hardcover" with ink type "standard", because
    [updateInkOptions] remaps the ink to "premium" and disables the option.
    The server functions neither remap nor reject: a reply that is not an
    error reports, and stores, the book type and the ink type they were
    given. *)
Theorem ink_rule_is_kept_by_the_dialog_only :
  (forall d bt it,
      reachable d -> carried (applySize d) = Some (bt, it) ->
      ~ hardcover_standard bt it)
  /\ (forall rt sizeName bt pt it ms w,
         let run := applyPageSettings rt sizeName bt pt it ms w in
         (exists e, fst run = Caught e)
         \/ (exists wi hi,
               fst run = PageSizeSet sizeName wi hi bt pt it /\
               getProperty_of (properties (snd run)) KEY =
                 Some (Settings.mk sizeName wi hi bt pt it (now rt))))
  /\ (forall rt wi hi bt pt it ms w,
         let run := applyCustomPageSize rt wi hi bt pt it ms w in
         fst run = InvalidDimensions
         \/ (exists e, fst run = Caught e)
         \/ (fst run = CustomPageSizeSet wi hi bt pt it /\
             getProperty_of (properties (snd run)) KEY =
               Some (Settings.mk "Custom" (Num wi) (Num hi) bt pt it (now rt)))).
Proof.
  split; [|split].
  - intros d bt it Re Ca [B I].
    apply carried_by_applySize in Ca. destruct Ca as [-> ->].
    destruct (reachable_rule d Re B) as [N _]. contradiction.
  - intros rt sizeName bt pt it ms w run. subst run.
    rewrite applyPageSettings_run.
    destruct (dimensionsOf sizeName) as [[wi hi]|e]; [|left; now exists e].
    destruct (invokeAll rt _ w) as [[[]|e] w'] eqn:E; cbn [conclude fst snd].
    + right. exists wi, hi. split; [reflexivity|].
      apply invokeAll_done in E. subst w'. apply pagePlan_size.
    + left. now exists e.
  - intros rt wi hi bt pt it ms w run. subst run.
    rewrite applyCustomPageSize_run.
    match goal with |- context [if ?c then _ else _] => destruct c end;
      [left; reflexivity | right].
    destruct (invokeAll rt _ w) as [[[]|e] w'] eqn:E; cbn [conclude fst snd].
    + right. split; [reflexivity|].
      apply invokeAll_done in E. subst w'. apply pagePlan_size.
    + left. now exists e.
Qed.

(** C4 as stated fails: [applyPageSettings] called with book type
    "hardcover" and ink type "standard" succeeds, and the settings record
    it stores holds exactly that pair. *)
Lemma server_stores_hardcover_with_standard_ink :
  let run :=
    applyPageSettings (obliging "t") "Hardcover - 6 x 9" "hardcover" "white"
                      "standard" (named "default") blank in
  fst run = PageSizeSet "Hardcover - 6 x 9" (Num 6) (Num 9)
                        "hardcover" "white" "standard"
  /\ getProperty_of (properties (snd run)) KEY =
       Some (Settings.mk "Hardcover - 6 x 9" (Num 6) (Num 9)
                         "hardcover" "white" "standard" "t")
  /\ hardcover_standard "hardcover" "standard".
Proof.
  cbv zeta. split; [vm_compute; reflexivity|].
  split; [vm_compute; reflexivity|]. split; reflexivity.
Qed.

(** ** The validation of custom dimensions *)

(** The two comparisons the code makes on one dimension are false exactly
    for NaN and for a number within the bounds. *)
Lemma range_check (lo hi x : float) sl ml el sh mh eh :
  Prim2SF lo = S754_finite sl ml el ->
  Prim2SF hi = S754_finite sh mh eh ->
  js_lt x lo || js_gt x hi = negb (is_nan x || within lo hi x).
Proof.
  intros Hlo Hhi.
  unfold js_lt, js_gt, within.
  rewrite is_nan_spec, !ltb_spec, !leb_spec, Hlo, Hhi.
  unfold SFltb, SFleb.
  rewrite (SFcompare_antisym (Prim2SF x) (S754_finite sl ml el)).
  rewrite (SFcompare_antisym (Prim2SF x) (S754_finite sh mh eh)).
  destruct (Prim2SF x) as [s|s| |s m e];
    try (destruct s, sl, sh; reflexivity); try reflexivity.
  assert (F : exists c,
    SFcompare (S754_finite s m e) (S754_finite sh mh eh) = Some c).
  { simpl. destruct s, sh; eauto. }
  destruct F as [c ->].
  assert (G : exists c,
    SFcompare (S754_finite s m e) (S754_finite sl ml el) = Some c).
  { simpl. destruct s, sl; eauto. }
  destruct G as [c' ->].
  cbn [option_map]. destruct c, c'; reflexivity.
Qed.

(** On two Numbers the test on primitives is the test of the function. *)
Lemma rejects_numbers parse w h :
  rejectsDimensions parse (PNumber w) (PNumber h) = negb (acceptable w h).
Proof. rewrite <- validation_test. reflexivity. Qed.

Lemma acceptable_policy w h : acceptable w h = true <-> policy w h.
Proof.
  rewrite acceptable_spec. unfold policy. split.
  - intros (Fw & Fh & W & H).
    rewrite <- (width_bounds_value w Fw), <- (height_bounds_value h Fh). tauto.
  - intros (Fw & Fh & W & H).
    rewrite (width_bounds_value w Fw), (height_bounds_value h Fh). tauto.
Qed.

Lemma journal_after_first rt fn success c cs w :
  exists later,
    journal (snd (conclude fn success (invokeAll rt (c :: cs) w)))
    = (journal w ++ c :: later)%list.
Proof.
  change (invokeAll rt (c :: cs) w)
    with (bind (invoke rt c) (fun _ => invokeAll rt cs) w).
  rewrite bind_invoke.
  destruct (throws rt w c) as [text|].
  - eexists. cbn [conclude snd]. cbn [record journal].
    rewrite <- app_assoc. reflexivity.
  - destruct (journal_grows rt fn success cs (perform c (record c w)))
      as [later J].
    exists later. rewrite J, journal_perform, <- app_assoc. reflexivity.
Qed.

Lemma proceeds_iff rt w h bt pt it ms world :
  proceeds rt w h bt pt it ms world <-> acceptable w h = true.
Proof.
  unfold proceeds. split.
  - intros (N & _). destruct (acceptable w h) eqn:A; [reflexivity|].
    exfalso. apply N. now apply reply_invalid_iff.
  - intros A. split; [|split].
    + intros E. apply reply_invalid_iff in E. congruence.
    + rewrite applyCustomPageSize_run, validation_test, A. cbn [negb].
      apply journal_after_first.
    + intros Q. rewrite applyCustomPageSize_quiet by assumption.
      cbn [fst snd].
      destruct (pagePlan_size rt "Custom" (Num w) (Num h) bt pt it ms world)
        as (PW & PH & _).
      repeat split; assumption.
Qed.

(** C1: for two Numbers, the validation of [applyCustomPageSize] succeeds
    exactly when both are finite, the width lies in [[4, 8.5]] and the
    height in [[6, 11.69]], bounds included and met by the numbers the
    inputs denote, 11.69 being the decimal itself.  Succeeding is going on
    to the host: the reply is not the validation message, the first call
    [getActiveDocument] is made, and when no call throws the page gets the
    two numbers times 72 and the reply reports them.  Failing is returning
    the validation message with the world as it was.  The widths 3.9 and
    8.6 and the heights 5.99 and 11.7 fail whatever the other number is;
    the widths 4 and 8.5 with the heights 6 and 11.69 succeed.  The test is
    the one below on any primitive: it asks that each argument be truthy
    and that its conversion to a Number be NaN or within the bounds, not
    that the argument be a number. *)
Theorem custom_dimensions_validated parse rt w h bt pt it ms world :
  let accepted x y := proceeds rt x y bt pt it ms world in
  let rejected x y :=
    applyCustomPageSize rt x y bt pt it ms world = (InvalidDimensions, world) in
  (accepted w h <-> policy w h)
  /\ (rejected w h <-> ~ policy w h)
  /\ (rejectsDimensions parse (PNumber w) (PNumber h) = true <-> rejected w h)
  /\ (forall a b : Primitive,
        rejectsDimensions parse a b = false <->
        toBoolean a = true /\ toBoolean b = true
        /\ (is_nan (toNumberOf parse a) = true
            \/ within MIN_WIDTH MAX_WIDTH (toNumberOf parse a) = true)
        /\ (is_nan (toNumberOf parse b) = true
            \/ within MIN_HEIGHT MAX_HEIGHT (toNumberOf parse b) = true))
  /\ rejected 3.9%float h /\ rejected 8.6%float h
  /\ rejected w 5.99%float /\ rejected w 11.7%float
  /\ accepted 4%float 6%float /\ accepted 8.5%float 6%float
  /\ accepted 4%float 11.69%float /\ accepted 8.5%float 11.69%float.
Proof.
  intros accepted rejected. subst accepted rejected. cbv beta.
  assert (no : forall x y, acceptable x y = false <->
    applyCustomPageSize rt x y bt pt it ms world = (InvalidDimensions, world)).
  { intros x y. split; [apply rejected_run|].
    intros E. apply (reply_invalid_iff rt x y bt pt it ms world).
    now rewrite E. }
  split; [|split; [|split; [|split]]].
  - rewrite proceeds_iff. apply acceptable_policy.
  - rewrite <- no, <- acceptable_policy. destruct (acceptable w h); split; congruence.
  - rewrite <- no, rejects_numbers. destruct (acceptable w h); split; (discriminate || reflexivity).
  - intros a b. unfold rejectsDimensions.
    pose proof (range_check MIN_WIDTH MAX_WIDTH (toNumberOf parse a)
                  _ _ _ _ _ _ eq_refl eq_refl) as W.
    pose proof (range_check MIN_HEIGHT MAX_HEIGHT (toNumberOf parse b)
                  _ _ _ _ _ _ eq_refl eq_refl) as H.
    set (x := toNumberOf parse a) in *. set (y := toNumberOf parse b) in *.
    destruct (toBoolean a), (toBoolean b),
      (js_lt x MIN_WIDTH), (js_gt x MAX_WIDTH),
      (js_lt y MIN_HEIGHT), (js_gt y MAX_HEIGHT),
      (is_nan x), (within MIN_WIDTH MAX_WIDTH x),
      (is_nan y), (within MIN_HEIGHT MAX_HEIGHT y);
      cbn in *; try discriminate; intuition congruence.
  - split; [|split; [|split; [|split; [|split; [|split; [|split]]]]]].
    + apply no. unfold acceptable.
      replace (within MIN_WIDTH MAX_WIDTH 3.9) with false by (vm_compute; reflexivity).
      now rewrite andb_false_r.
    + apply no. unfold acceptable.
      replace (within MIN_WIDTH MAX_WIDTH 8.6) with false by (vm_compute; reflexivity).
      now rewrite andb_false_r.
    + apply no. unfold acceptable.
      replace (within MIN_HEIGHT MAX_HEIGHT 5.99) with false by (vm_compute; reflexivity).
      now rewrite andb_false_r.
    + apply no. unfold acceptable.
      replace (within MIN_HEIGHT MAX_HEIGHT 11.7) with false by (vm_compute; reflexivity).
      now rewrite andb_false_r.
    + apply proceeds_iff. vm_compute. reflexivity.
    + apply proceeds_iff. vm_compute. reflexivity.
    + apply proceeds_iff. vm_compute. reflexivity.
    + apply proceeds_iff. vm_compute. reflexivity.
Qed.

(** The width "wide" with the height 9: the string is no number, yet the
    test lets the pair through, whatever the engine's conversion of numeric
    strings; the return expression then throws, the string having no
    [toFixed]. *)
Lemma a_string_passes_the_validation :
  finiteNumber (PString "wide") = false
  /\ toBoolean (PString "wide") = true
  /\ (forall parse, is_nan (toNumberOf parse (PString "wide")) = true)
  /\ (forall parse, rejectsDimensions parse (PString "wide") (PNumber 9) = false)
  /\ (forall fixed bt pt it,
        customReturn fixed (PString "wide") (PNumber 9) bt pt it
        = inr "TypeError: widthInches.toFixed is not a function").
Proof.
  repeat split; intros; vm_compute; reflexivity.
Qed.

(** * Sample runs *)

Example lookup_samples :
  getProperty KDP_SIZES "Paperback - 5.06 x 7.81" = Entry (paperback 5.06 7.81)
  /\ getProperty KDP_SIZES "Letter" = Missing
  /\ getProperty COMMON_SIZES "Letter" = Entry (common 8.5 11)
  /\ getProperty KDP_SIZES "toString" = Inherited
  /\ getProperty COMMON_SIZES "Folio" = Missing.
Proof. repeat split. Qed.

Example stripBookPrefix_samples :
  stripBookPrefix "Hardcover - 8.5 x 11" = "8.5 x 11"
  /\ stripBookPrefix "Paperback - 6 x 9" = "6 x 9"
  /\ stripBookPrefix "Letter" = "Letter"
  /\ stripBookPrefix "My Paperback - 6 x 9" = "My Paperback - 6 x 9".
Proof. repeat split. Qed.

Example truthy_samples :
  truthy nan = false /\ truthy 0 = false /\ truthy (-0) = false
  /\ truthy infinity = true /\ truthy 3.9 = true
  /\ js_lt nan MIN_WIDTH = false /\ js_gt nan MAX_WIDTH = false
  /\ js_gt infinity MAX_WIDTH = true /\ js_lt neg_infinity MIN_WIDTH = true.
Proof. repeat split. Qed.

(** A run in which nothing throws: the eleven host calls, in order. *)
Example six_by_nine_run :
  applyPageSettings (obliging "2025-03-01T00:00:00.000Z") "Paperback - 6 x 9"
                    "paperback" "cream" "black" (named "mirrored") blank
  = (PageSizeSet "Paperback - 6 x 9" (Num 6) (Num 9) "paperback" "cream" "black",
     mkWorld
       (mkBody 432 648 COLOR_CREAM 72 72 90 54)
       [(KEY, Settings.mk "Paperback - 6 x 9" (Num 6) (Num 9) "paperback"
                          "cream" "black" "2025-03-01T00:00:00.000Z")]
       [GetActiveDocument; GetBody; SetPageWidth 432; SetPageHeight 648;
        SetBackgroundColor COLOR_CREAM;
        SetMarginTop 72; SetMarginBottom 72; SetMarginLeft 90; SetMarginRight 54;
        GetDocumentProperties;
        SetProperty KEY
          (Settings.mk "Paperback - 6 x 9" (Num 6) (Num 9) "paperback"
                       "cream" "black" "2025-03-01T00:00:00.000Z")]).
Proof. vm_compute. reflexivity. Qed.

(** A run in which the first host call throws: the error is logged and
    returned, and the document is untouched. *)
Example refused_run :
  applyPageSettings (failing "t" "Exception: no document") "Letter"
                    "paperback" "white" "black" (named "default") blank
  = (Caught (HostFailure "Exception: no document"),
     mkWorld (body blank) []
       [GetActiveDocument;
        LoggerLog "Error in applyPageSettings: Exception: no document"])
  /\ message (fun _ => "") (fun _ => "") (Caught (HostFailure "Exception: no document"))
     = "Error: Exception: no document".
Proof. split; vm_compute; reflexivity. Qed.

(** Custom margins: each of the four values is multiplied by 72. *)
Example custom_margins_run :
  body (snd (applyCustomPageSize (obliging "t") 5.5 8.5 "paperback" "white"
                                 "black" (custom 0.75 0.75 1 0.5) blank))
  = mkBody 396 612 COLOR_WHITE 54 54 72 36.
Proof. vm_compute. reflexivity. Qed.

(** The dialog: ink "standard" chosen for a paperback is remapped when a
    hardcover size is selected, and cannot be chosen again. *)
Example dialog_remaps_standard_ink :
  (d1 <- step opened (SelectInkType "standard") ;;
   d2 <- step d1 (SelectBookSize "Hardcover - 6 x 9") ;;
   Some (applySize d2, step d2 (SelectInkType "standard")))%option_bind
  = Some (CallApplyPageSettings "Hardcover - 6 x 9" "hardcover" "white"
                                "premium" (named "default"),
          None).
Proof. vm_compute. reflexivity. Qed.

(** * More properties *)

(** ** Runs under any runtime *)

Lemma effects_app cs ds w : effects (cs ++ ds) w = effects ds (effects cs w).
Proof. apply fold_left_app. Qed.

(** A list of host calls either runs to its end or stops at the first call
    that throws, with the calls before it done. *)
Lemma invokeAll_cases rt cs w :
  invokeAll rt cs w = (inl tt, effects cs w)
  \/ exists made c rest text,
       cs = (made ++ c :: rest)%list
       /\ throws rt (effects made w) c = Some text
       /\ invokeAll rt cs w = (inr (HostFailure text), record c (effects made w)).
Proof.
  revert w. induction cs as [|c cs IH]; intros w.
  - left. reflexivity.
  - cbn [invokeAll]. rewrite bind_invoke.
    destruct (throws rt w c) as [text|] eqn:T.
    + right. exists [], c, cs, text. repeat split. exact T.
    + destruct (IH (perform c (record c w)))
        as [E | (made & c' & rest & text & -> & T' & E)].
      * left. exact E.
      * right. exists (c :: made), c', rest, text. repeat split; assumption.
Qed.

(** No rollback: when the host refuses the page height, the reply is the
    error, and the page width set just before stays set. *)
Example refused_height_keeps_new_width :
  applyPageSettings
    (refusing "t" "Exception: Invalid argument"
              (fun c => match c with SetPageHeight _ => true | _ => false end))
    "Tabloid" "paperback" "white" "black" (named "default") blank
  = (Caught (HostFailure "Exception: Invalid argument"),
     mkWorld (mkBody 792 792 COLOR_WHITE 72 72 72 72) []
       [GetActiveDocument; GetBody; SetPageWidth 792; SetPageHeight 1224;
        LoggerLog "Error in applyPageSettings: Exception: Invalid argument"]).
Proof. vm_compute. reflexivity. Qed.

(** *** What is stored *)

Lemma effects_keep_properties cs w :
  forallb (fun c => negb (stores c)) cs = true ->
  properties (effects cs w) = properties w.
Proof.
  revert w. induction cs as [|c cs IH]; intros w; cbn [forallb]; [reflexivity|].
  rewrite andb_true_iff. intros [C F].
  change (effects (c :: cs) w) with (effects cs (perform c (record c w))).
  rewrite (IH _ F). destruct c; try reflexivity; discriminate.
Qed.

Lemma front_of_prefix {A} (made : list A) c rest front l :
  (made ++ c :: rest = front ++ [l])%list ->
  exists tail, front = (made ++ tail)%list.
Proof.
  revert front. induction made as [|a made IH]; intros front E.
  - now exists front.
  - destruct front as [|a' front]; cbn in E.
    + injection E as _ E. destruct made; discriminate.
    + injection E as <- E. destruct (IH _ E) as [tail ->]. now exists tail.
Qed.

(** The plan ends in the one call that stores. *)
Lemma pagePlan_front rt sizeName wi hi bt pt it ms :
  exists front,
    pagePlan rt sizeName wi hi bt pt it ms =
      (front ++ [SetProperty KEY (Settings.mk sizeName wi hi bt pt it (now rt))])%list
    /\ forallb (fun c => negb (stores c)) front = true.
Proof.
  unfold pagePlan, marginPlan.
  repeat match goal with
    | |- context [if truthy_type ?t then _ else _] => destruct (truthy_type t)
    | |- context [if type_is ?t ?l then _ else _] => destruct (type_is t l)
    end; cbn [app];
    match goal with
    | |- exists front, ?plan = _ /\ _ => exists (removelast plan)
    end; split; reflexivity.
Qed.

Lemma properties_after_plan rt sizeName wi hi bt pt it ms w :
  properties (effects (pagePlan rt sizeName wi hi bt pt it ms) w) =
  (KEY, Settings.mk sizeName wi hi bt pt it (now rt))
    :: filter (fun kv => negb (fst kv =? KEY)) (properties w).
Proof.
  destruct (pagePlan_front rt sizeName wi hi bt pt it ms) as (front & -> & F).
  rewrite effects_app. cbn. now rewrite (effects_keep_properties _ _ F).
Qed.

Lemma properties_before_the_end rt sizeName wi hi bt pt it ms made c rest w :
  pagePlan rt sizeName wi hi bt pt it ms = (made ++ c :: rest)%list ->
  properties (effects made w) = properties w.
Proof.
  destruct (pagePlan_front rt sizeName wi hi bt pt it ms) as (front & -> & F).
  intros E. symmetry in E. destruct (front_of_prefix _ _ _ _ _ E) as [tail ->].
  rewrite forallb_app, andb_true_iff in F.
  now apply effects_keep_properties.
Qed.

(** The properties after a run that went through [conclude]. *)
Lemma concluded_properties rt fn success sizeName wi hi bt pt it ms w :
  failed success = false ->
  let r := conclude fn success
             (invokeAll rt (pagePlan rt sizeName wi hi bt pt it ms) w) in
  (failed (fst r) = false /\
   properties (snd r) =
     (KEY, Settings.mk sizeName wi hi bt pt it (now rt))
       :: filter (fun kv => negb (fst kv =? KEY)) (properties w))
  \/ (failed (fst r) = true /\ properties (snd r) = properties w).
Proof.
  intros S r. subst r.
  destruct (invokeAll_cases rt (pagePlan rt sizeName wi hi bt pt it ms) w)
    as [-> | (made & c & rest & text & P & _ & ->)]; cbn [conclude fst snd].
  - left. split; [exact S | apply properties_after_plan].
  - right. split; [reflexivity|]. cbn [record properties].
    exact (properties_before_the_end _ _ _ _ _ _ _ _ _ _ _ _ P).
Qed.

(** The same for the two server functions. *)
Lemma served_properties rt w :
  (forall sizeName bt pt it ms,
      let r := applyPageSettings rt sizeName bt pt it ms w in
      (failed (fst r) = false /\
       exists s, properties (snd r) =
                 (KEY, s) :: filter (fun kv => negb (fst kv =? KEY)) (properties w))
      \/ (failed (fst r) = true /\ properties (snd r) = properties w))
  /\ (forall wi hi bt pt it ms,
         let r := applyCustomPageSize rt wi hi bt pt it ms w in
         (failed (fst r) = false /\
          exists s, properties (snd r) =
                    (KEY, s) :: filter (fun kv => negb (fst kv =? KEY)) (properties w))
         \/ (failed (fst r) = true /\ properties (snd r) = properties w)).
Proof.
  split.
  - intros sizeName bt pt it ms r. subst r. rewrite applyPageSettings_run.
    destruct (dimensionsOf sizeName) as [[wd ht]|e]; [|right; split; reflexivity].
    destruct (concluded_properties rt "applyPageSettings"
                (PageSizeSet sizeName wd ht bt pt it) sizeName wd ht bt pt it ms w
                eq_refl) as [[F P]|[F P]]; [left | right]; split; eauto.
  - intros wi hi bt pt it ms r. subst r. rewrite applyCustomPageSize_run.
    match goal with |- context [if ?c then _ else _] => destruct c end;
      [right; split; reflexivity|].
    destruct (concluded_properties rt "applyCustomPageSize"
                (CustomPageSizeSet wi hi bt pt it) "Custom" (Num wi) (Num hi)
                bt pt it ms w eq_refl) as [[F P]|[F P]]; [left | right]; split; eauto.
Qed.

Lemma lookup_after_filter key k props :
  k <> key ->
  getProperty_of (filter (fun kv => negb (fst kv =? key)) props) k =
  getProperty_of props k.
Proof.
  intros N. induction props as [|[k' v] props IH]; [reflexivity|].
  cbn [filter fst getProperty_of].
  destruct (k' =? key) eqn:E; cbn [negb].
  - apply String.eqb_eq in E. subst k'.
    destruct (key =? k) eqn:K; [|exact IH].
    apply String.eqb_eq in K. congruence.
  - cbn [getProperty_of]. now rewrite IH.
Qed.

Lemma nothing_left_under key props :
  stored_under key (filter (fun kv => negb (fst kv =? key)) props) = [].
Proof.
  unfold stored_under. induction props as [|[k v] props IH]; [reflexivity|].
  cbn [filter fst]. destruct (k =? key) eqn:E; cbn [negb filter fst]; [exact IH|].
  now rewrite E.
Qed.

(** The settings live under one key: a run of either server function
    leaves every other document property as it was, and after a successful
    run exactly one record is stored under "kdpFormatterSettings", whatever
    was stored there before. *)
Theorem settings_are_kept_under_one_key rt w :
  (forall sizeName bt pt it ms,
      let r := applyPageSettings rt sizeName bt pt it ms w in
      (forall k, k <> KEY ->
                 getProperty_of (properties (snd r)) k = getProperty_of (properties w) k)
      /\ (failed (fst r) = false ->
          List.length (stored_under KEY (properties (snd r))) = 1%nat))
  /\ (forall wi hi bt pt it ms,
         let r := applyCustomPageSize rt wi hi bt pt it ms w in
         (forall k, k <> KEY ->
                    getProperty_of (properties (snd r)) k = getProperty_of (properties w) k)
         /\ (failed (fst r) = false ->
             List.length (stored_under KEY (properties (snd r))) = 1%nat)).
Proof.
  assert (one : forall s props,
    (forall k, k <> KEY ->
       getProperty_of ((KEY, s) :: filter (fun kv => negb (fst kv =? KEY)) props) k
       = getProperty_of props k)
    /\ List.length (stored_under KEY
                 ((KEY, s) :: filter (fun kv => negb (fst kv =? KEY)) props)) = 1%nat).
  { intros s props. split.
    - intros k N. cbn [getProperty_of].
      destruct (KEY =? k) eqn:E; [apply String.eqb_eq in E; congruence|].
      now apply lookup_after_filter.
    - unfold stored_under. cbn [filter fst]. rewrite String.eqb_refl.
      fold (stored_under KEY (filter (fun kv => negb (fst kv =? KEY)) props)).
      now rewrite nothing_left_under. }
  destruct (served_properties rt w) as [P C]. split.
  - intros sizeName bt pt it ms r.
    destruct (P sizeName bt pt it ms) as [[N [s E]]|[F E]]; subst r; rewrite E.
    + split; [apply one | intros _; apply one].
    + split; [reflexivity | congruence].
  - intros wi hi bt pt it ms r.
    destruct (C wi hi bt pt it ms) as [[N [s E]]|[F E]]; subst r; rewrite E.
    + split; [apply one | intros _; apply one].
    + split; [reflexivity | congruence].
Qed.

(** ** What [applyMargins] leaves alone *)

Lemma margin_calls_frame cs w :
  forallb sets_margin cs = true ->
  pageWidth (body (effects cs w)) = pageWidth (body w)
  /\ pageHeight (body (effects cs w)) = pageHeight (body w)
  /\ backgroundColor (body (effects cs w)) = backgroundColor (body w)
  /\ properties (effects cs w) = properties w.
Proof.
  revert w. induction cs as [|c cs IH]; intros w; cbn [forallb]; [tauto|].
  rewrite andb_true_iff. intros [C F].
  change (effects (c :: cs) w) with (effects cs (perform c (record c w))).
  destruct (IH (perform c (record c w)) F) as (W & H & B & P).
  rewrite W, H, B, P. destruct c; try discriminate; repeat split.
Qed.

Lemma marginPlan_sets_margins ms : forallb sets_margin (marginPlan ms) = true.
Proof.
  unfold marginPlan.
  repeat match goal with
    | |- context [if truthy_type ?t then _ else _] => destruct (truthy_type t)
    | |- context [if type_is ?t ?l then _ else _] => destruct (type_is t l)
    end; reflexivity.
Qed.

(** [applyMargins] touches nothing but the margins: under any runtime and
    for any margin settings, also when a setter throws half way, the page
    width, the page height, the background colour and the document
    properties are as before. *)
Theorem applyMargins_touches_only_margins rt ms w :
  let w' := snd (applyMargins rt ms w) in
  pageWidth (body w') = pageWidth (body w)
  /\ pageHeight (body w') = pageHeight (body w)
  /\ backgroundColor (body w') = backgroundColor (body w)
  /\ properties w' = properties w.
Proof.
  intros w'. subst w'. rewrite applyMargins_plan.
  pose proof (marginPlan_sets_margins ms) as M.
  destruct (invokeAll_cases rt (marginPlan ms) w)
    as [-> | (made & c & rest & text & P & _ & ->)]; cbn [snd].
  - now apply margin_calls_frame.
  - rewrite P, forallb_app, andb_true_iff in M. destruct M as [M _].
    cbn [record body properties]. now apply margin_calls_frame.
Qed.

(** ** The text of a reply *)

Lemma failed_by_prefix show fixed (r : Reply) :
  prefix "Error: " (message show fixed r) = failed r.
Proof.
  destruct r as [n wd ht bt pt it | wd ht bt pt it | | e]; try reflexivity.
  cbn [message failed].
  change (prefix "Error: " ("Error: " ++ errorToString e))
    with (prefix "" (errorToString e)).
  now destruct (errorToString e).
Qed.


(** ** The dialog *)

Lemma updateInkOptions_well_formed d :
  offers BOOK_SIZE_OPTIONS (Dialog.bookSize d) = true ->
  offers BOOK_TYPE_OPTIONS (Dialog.bookType d) = true ->
  offers PAPER_TYPE_OPTIONS (Dialog.paperType d) = true ->
  offers INK_TYPE_OPTIONS (Dialog.inkType d) = true ->
  offers MARGIN_OPTIONS (Dialog.margins d) = true ->
  well_formed (updateInkOptions d).
Proof.
  intros S T P I M. unfold updateInkOptions, well_formed.
  destruct (Dialog.bookType d =? "hardcover") eqn:H;
    cbn [Dialog.bookSize Dialog.bookType Dialog.paperType Dialog.inkType
         Dialog.margins Dialog.standardDisabled];
    rewrite H; repeat split; try assumption.
  now destruct (Dialog.inkType d =? "standard").
Qed.

Lemma step_well_formed d e d' :
  well_formed d -> step d e = Some d' -> well_formed d'.
Proof.
  intros (S & T & P & I & M & D).
  destruct e as [v|v|v|v|v|x|x|x|x|x|x]; cbn [step].
  - destruct (offers BOOK_SIZE_OPTIONS v) eqn:O; [|discriminate].
    intros [= <-].
    destruct (prefix "Hardcover" v);
      [apply updateInkOptions_well_formed; assumption || reflexivity|].
    destruct (prefix "Paperback" v);
      [apply updateInkOptions_well_formed; assumption || reflexivity|].
    repeat split; assumption.
  - destruct (offers BOOK_TYPE_OPTIONS v) eqn:O; [|discriminate].
    intros [= <-]. apply updateInkOptions_well_formed; assumption.
  - destruct (offers PAPER_TYPE_OPTIONS v) eqn:O; [|discriminate].
    intros [= <-]. repeat split; assumption.
  - destruct (offers INK_TYPE_OPTIONS v) eqn:O; [|discriminate]. cbn [andb].
    destruct (negb ((v =? "standard") && Dialog.standardDisabled d));
      [|discriminate].
    intros [= <-]. repeat split; assumption.
  - destruct (offers MARGIN_OPTIONS v) eqn:O; [|discriminate].
    intros [= <-]. repeat split; assumption.
  - intros [= <-]. repeat split; assumption.
  - intros [= <-]. repeat split; assumption.
  - intros [= <-]. repeat split; assumption.
  - intros [= <-]. repeat split; assumption.
  - intros [= <-]. repeat split; assumption.
  - intros [= <-]. repeat split; assumption.
Qed.

Lemma reachable_well_formed d : reachable d -> well_formed d.
Proof.
  induction 1 as [|d e d' _ IH S].
  - repeat split.
  - exact (step_well_formed d e d' IH S).
Qed.

Lemma offered options v :
  offers options v = true -> In v options.
Proof.
  unfold offers. rewrite existsb_exists. intros (x & I & E).
  apply String.eqb_eq in E. now subst x.
Qed.

(** After any sequence of actions the selects hold values they offer, the
    standard-ink option is disabled exactly when the book type is
    "hardcover" (it is enabled again on the way back to "paperback"), and
    ink "standard" is only ever held together with book type "paperback". *)
Theorem standard_ink_is_disabled_exactly_for_hardcover d :
  reachable d ->
  well_formed d
  /\ (Dialog.inkType d = "standard" -> Dialog.bookType d = "paperback").
Proof.
  intros R. pose proof (reachable_well_formed d R) as W. split; [exact W|].
  intros I. destruct W as (_ & T & _).
  apply offered in T. cbn in T. destruct T as [T|[T|[]]]; [now symmetry|].
  symmetry in T. destruct (reachable_rule d R T) as [N _]. contradiction.
Qed.

Lemma standard_ink_is_disabled_exactly_for_hardcover_witness :
  exists d,
    step opened (SelectBookType "hardcover") = Some d
    /\ Dialog.standardDisabled d = true
    /\ exists d', step d (SelectBookType "paperback") = Some d'
                  /\ Dialog.standardDisabled d' = false.
Proof.
  eexists. split; [reflexivity|].
  pose proof (standard_ink_is_disabled_exactly_for_hardcover _
                (reach_step _ (SelectBookType "hardcover") _ reach_opened eq_refl))
    as [(_ & _ & _ & _ & _ & D) _].
  split; [exact D|].
  eexists. split; reflexivity.
Defined.

(** The dialog and the server make the same test on custom dimensions: a
    custom request the dialog sends is never answered with the validation
    message, and the dialog shows its own alert exactly for the custom
    dimensions the server would reject. *)
Theorem dialog_and_server_agree_on_dimensions d :
  (forall w h bt pt it ms,
      applySize d = CallApplyCustomPageSize w h bt pt it ms ->
      acceptable w h = true
      /\ forall rt world,
           fst (applyCustomPageSize rt w h bt pt it ms world) <> InvalidDimensions)
  /\ (applySize d = AlertInvalidDimensions <->
      Dialog.bookSize d = "Custom"
      /\ acceptable (Dialog.customWidth d) (Dialog.customHeight d) = false).
Proof.
  unfold applySize. rewrite validation_test.
  destruct (Dialog.bookSize d =? "Custom") eqn:C.
  - apply String.eqb_eq in C.
    destruct (acceptable (Dialog.customWidth d) (Dialog.customHeight d)) eqn:A;
      cbn [negb]; split.
    + intros w h bt pt it ms [= <- <- <- <- <- <-]. split; [exact A|].
      intros rt world E. apply reply_invalid_iff in E. congruence.
    + split; [discriminate | intros [_ F]; discriminate].
    + discriminate.
    + tauto.
  - apply String.eqb_neq in C.
    destruct (truthy_string (Dialog.bookSize d)); split;
      try discriminate; split; try discriminate; intros [E _]; contradiction.
Qed.

Lemma listed_size name :
  offers BOOK_SIZE_OPTIONS name = true -> name <> "" -> name <> "Custom" ->
  exists s,
    (own KDP_SIZES name = Some s \/ own COMMON_SIZES name = Some s)
    /\ dimensionsOf name = inl (Num (Size.width s), Num (Size.height s)).
Proof.
  intros O E C. apply offered in O. cbv in O.
  repeat (destruct O as [<-|O];
          [first [ contradiction
                 | eexists; split; [left; reflexivity | reflexivity]
                 | eexists; split; [right; reflexivity | reflexivity] ]|]).
  contradiction.
Qed.

Lemma preset_request d name bt pt it ms :
  applySize d = CallApplyPageSettings name bt pt it ms ->
  name = Dialog.bookSize d /\ name <> "" /\ name <> "Custom".
Proof.
  unfold applySize.
  destruct (Dialog.bookSize d =? "Custom") eqn:C.
  - match goal with |- context [if ?c then _ else _] => destruct c end;
      discriminate.
  - apply String.eqb_neq in C.
    destruct (truthy_string (Dialog.bookSize d)) eqn:T; [|discriminate].
    intros [= <- <- <- <- <-]. repeat split; [|exact C].
    unfold truthy_string in T. intros E. rewrite E in T. discriminate.
Qed.

(** A preset request the dialog sends names a size that one of the tables
    owns, and never "Custom": the server finds width and height for it, so
    its reply is never the TypeError of a missing name and the page is never
    set to the 0 by 0 of the "Custom" entry. *)
Theorem dialog_presets_are_listed_sizes d name bt pt it ms :
  reachable d ->
  applySize d = CallApplyPageSettings name bt pt it ms ->
  name <> "Custom"
  /\ (exists s,
         (own KDP_SIZES name = Some s \/ own COMMON_SIZES name = Some s)
         /\ dimensionsOf name = inl (Num (Size.width s), Num (Size.height s)))
  /\ (forall rt w prop,
         fst (applyPageSettings rt name bt pt it ms w)
         <> Caught (ReadOfUndefined prop)).
Proof.
  intros R A. destruct (preset_request _ _ _ _ _ _ A) as (N & E & C).
  destruct (reachable_well_formed d R) as (S & _). rewrite <- N in S.
  destruct (listed_size name S E C) as (s & O & D).
  split; [exact C|]. split; [now exists s|].
  intros rt w prop. rewrite applyPageSettings_run, D.
  destruct (invokeAll rt _ w) as [[u|e] w'] eqn:I; cbn; [discriminate|].
  apply invokeAll_thrown in I. destruct I as [text ->]. discriminate.
Qed.

Lemma dialog_presets_are_listed_sizes_witness :
  exists d,
    reachable d
    /\ applySize d = CallApplyPageSettings "A4" "paperback" "white" "black"
                                           (named "default")
    /\ dimensionsOf "A4" = inl (Num 8.27, Num 11.69).
Proof.
  exists (setBookSize "A4" opened).
  assert (R : reachable (setBookSize "A4" opened))
    by exact (reach_step _ (SelectBookSize "A4") _ reach_opened eq_refl).
  split; [exact R|]. split; [reflexivity|].
  destruct (dialog_presets_are_listed_sizes _ "A4" "paperback" "white" "black"
              (named "default") R eq_refl) as (_ & (s & _ & D) & _).
  reflexivity.
Defined.

Lemma sent_margins d ms :
  sentMargins (applySize d) = Some ms ->
  ms = if Dialog.margins d =? "custom"
       then custom (Dialog.topMargin d) (Dialog.bottomMargin d)
                   (Dialog.insideMargin d) (Dialog.outsideMargin d)
       else named (Dialog.margins d).
Proof.
  unfold applySize.
  destruct (Dialog.bookSize d =? "Custom").
  - match goal with |- context [if ?c then AlertInvalidDimensions else _] =>
      destruct c end; cbn; [discriminate | now intros [= <-]].
  - destruct (truthy_string (Dialog.bookSize d)); cbn;
      [now intros [= <-] | discriminate].
Qed.

(** The margin settings of every request the dialog sends resolve: they are
    one of the four named variants or four numbers, so [applyMargins] makes
    its four setter calls and never falls through its switch. *)
Theorem dialog_margins_always_resolve d ms :
  reachable d ->
  sentMargins (applySize d) = Some ms ->
  resolveMargins ms <> None
  /\ exists t b l r,
       marginPlan ms =
       [SetMarginTop t; SetMarginBottom b; SetMarginLeft l; SetMarginRight r].
Proof.
  intros R S. apply sent_margins in S.
  destruct (reachable_well_formed d R) as (_ & _ & _ & _ & M & _).
  assert (V : exists q, resolveMargins ms = Some q).
  { subst ms. apply offered in M. cbn in M.
    destruct M as [<-|[<-|[<-|[<-|[<-|[]]]]]]; cbn; eauto. }
  destruct V as [[[[t b] l] r] V]. split; [congruence|].
  rewrite (marginPlan_resolved _ _ _ _ _ V). eauto.
Qed.

Lemma dialog_margins_always_resolve_witness :
  exists d,
    reachable d
    /\ sentMargins (applySize d) = Some (custom 1 1 1 1)
    /\ resolveMargins (custom 1 1 1 1) <> None.
Proof.
  exists (setMargins "custom" (setBookSize "A4" opened)).
  assert (R : reachable (setMargins "custom" (setBookSize "A4" opened))).
  { apply (reach_step (setBookSize "A4" opened) (SelectMargins "custom"));
      [|reflexivity].
    exact (reach_step _ (SelectBookSize "A4") _ reach_opened eq_refl). }
  split; [exact R|]. split; [reflexivity|].
  exact (proj1 (dialog_margins_always_resolve _ (custom 1 1 1 1) R eq_refl)).
Defined.

(** The ink rule follows the book-type select, not the size: from any form
    the author can reach, every listed size - a hardcover size too - can be
    sent as a "paperback" with "standard" ink, by choosing the size, then
    the book type, then the ink. *)
Theorem any_size_can_go_as_paperback_with_standard_ink d name :
  reachable d ->
  offers BOOK_SIZE_OPTIONS name = true -> name <> "" -> name <> "Custom" ->
  exists d1 d2 d3,
    step d (SelectBookSize name) = Some d1
    /\ step d1 (SelectBookType "paperback") = Some d2
    /\ step d2 (SelectInkType "standard") = Some d3
    /\ reachable d3
    /\ exists marginSettings,
         applySize d3 =
         CallApplyPageSettings name "paperback" (Dialog.paperType d) "standard"
                               marginSettings.
Proof.
  intros R O E C.
  assert (S1 : exists d1, step d (SelectBookSize name) = Some d1
                          /\ Dialog.bookSize d1 = name
                          /\ Dialog.paperType d1 = Dialog.paperType d).
  { cbn [step]. rewrite O. eexists. split; [reflexivity|].
    destruct (prefix "Hardcover" name); [|destruct (prefix "Paperback" name)];
      unfold updateInkOptions;
      repeat match goal with |- context [if ?c then _ else _] => destruct c end;
      split; reflexivity. }
  destruct S1 as (d1 & S1 & B1 & P1).
  exists d1, (updateInkOptions (setBookType "paperback" d1)).
  eexists. split; [exact S1|]. split; [reflexivity|]. split; [reflexivity|].
  split.
  - apply (reach_step (updateInkOptions (setBookType "paperback" d1))
                       (SelectInkType "standard")); [|reflexivity].
    apply (reach_step d1 (SelectBookType "paperback")); [|reflexivity].
    exact (reach_step d (SelectBookSize name) d1 R S1).
  - unfold applySize.
    cbn [updateInkOptions setBookType setInkType Dialog.bookType Dialog.bookSize
         Dialog.paperType Dialog.inkType Dialog.margins String.eqb Ascii.eqb
         Bool.eqb].
    rewrite B1, P1.
    apply String.eqb_neq in C. rewrite C.
    assert (T : truthy_string name = true).
    { unfold truthy_string. apply String.eqb_neq in E. now rewrite E. }
    rewrite T. eauto.
Qed.

Lemma any_size_can_go_as_paperback_with_standard_ink_witness :
  exists d3,
    reachable d3
    /\ applySize d3 =
       CallApplyPageSettings "Hardcover - 6 x 9" "paperback" "white" "standard"
                             (named "default").
Proof.
  destruct (any_size_can_go_as_paperback_with_standard_ink
              opened "Hardcover - 6 x 9" reach_opened eq_refl
              ltac:(discriminate) ltac:(discriminate))
    as (d1 & d2 & d3 & S1 & S2 & S3 & R & ms & A).
  exists d3. split; [exact R|].
  cbn in S1. injection S1 as <-.
  cbn in S2. injection S2 as <-.
  cbn in S3. injection S3 as <-.
  reflexivity.
Defined.

(** Choosing a size in the dropdown: for a size of the KDP table the book
    type becomes the [type] the table stores for it (the script reads it
    off the name); for any other option the book type and the ink are left
    as they were. *)
Theorem choosing_a_size_sets_the_book_type d name d' :
  step d (SelectBookSize name) = Some d' ->
  Dialog.bookSize d' = name
  /\ (forall s, own KDP_SIZES name = Some s ->
                Some (Dialog.bookType d') = Size.type s)
  /\ (own KDP_SIZES name = None ->
      Dialog.bookType d' = Dialog.bookType d
      /\ Dialog.inkType d' = Dialog.inkType d).
Proof.
  cbn [step]. destruct (offers BOOK_SIZE_OPTIONS name) eqn:O; [|discriminate].
  intros [= <-]. apply offered in O. cbv in O.
  repeat (destruct O as [<-|O];
          [cbn; unfold updateInkOptions; cbn;
           repeat match goal with
             | |- context [if ?c then _ else _] => destruct c
             end;
           (split; [reflexivity|]; split;
            [intros s [= <-]; reflexivity || discriminate
            | intros; try discriminate; split; reflexivity])|]).
  contradiction.
Qed.

Lemma choosing_a_size_sets_the_book_type_witness :
  exists d',
    step opened (SelectBookSize "Hardcover - 7 x 10") = Some d'
    /\ Dialog.bookType d' = "hardcover".
Proof.
  eexists. split; [reflexivity|].
  pose proof (proj1 (proj2 (choosing_a_size_sets_the_book_type
                              opened "Hardcover - 7 x 10" _ eq_refl))
                    (hardcover 7 10) eq_refl) as T.
  exact (f_equal (fun o => match o with Some t => t | None => "" end) T).
Defined.

(** ** The tables and the dropdown *)

Lemma own_In table name s : own table name = Some s -> In (name, s) table.
Proof.
  induction table as [|[k v] table IH]; cbn [own]; [discriminate|].
  destruct (k =? name) eqn:E.
  - apply String.eqb_eq in E. intros [= <-]. left. now subst.
  - intros O. right. now apply IH.
Qed.

(** The sizes of the KDP table satisfy the policy the custom dimensions are
    checked against, so entering a KDP size by hand is never refused; a KDP
    name is owned by the KDP table alone and is no inherited property name,
    so the order of the two lookups cannot matter for it. *)
Theorem kdp_sizes_meet_the_policy name s :
  own KDP_SIZES name = Some s ->
  acceptable (Size.width s) (Size.height s) = true
  /\ (forall rt bt pt it ms w,
         fst (applyCustomPageSize rt (Size.width s) (Size.height s) bt pt it ms w)
         <> InvalidDimensions)
  /\ own COMMON_SIZES name = None
  /\ inherited name = false.
Proof.
  intros O. apply own_In in O.
  assert (A : acceptable (Size.width s) (Size.height s) = true
              /\ own COMMON_SIZES name = None /\ inherited name = false).
  { cbv [KDP_SIZES] in O.
    repeat (destruct O as [[= <- <-]|O];
            [split; [vm_compute; reflexivity | split; reflexivity]|]).
    contradiction. }
  destruct A as (A & C & I). repeat split; try assumption.
  intros rt bt pt it ms w E. apply reply_invalid_iff in E. congruence.
Qed.

Lemma kdp_sizes_meet_the_policy_witness :
  own KDP_SIZES "Paperback - 8.25 x 6" = Some (paperback 8.25 6)
  /\ acceptable 8.25 6 = true.
Proof.
  split; [reflexivity|].
  exact (proj1 (kdp_sizes_meet_the_policy "Paperback - 8.25 x 6"
                  (paperback 8.25 6) eq_refl)).
Defined.

Lemma kdpGroups_loop show table pb hc :
  fold_left
    (fun groups entry =>
       if type_is (Size.type (snd entry)) "paperback"
       then (fst groups ++ [kdpChoice show entry], snd groups)%list
       else (fst groups, snd groups ++ [kdpChoice show entry])%list)
    table (pb, hc)
  = ((pb ++ map (kdpChoice show)
              (filter (fun e => type_is (Size.type (snd e)) "paperback") table))%list,
     (hc ++ map (kdpChoice show)
              (filter (fun e => negb (type_is (Size.type (snd e)) "paperback"))
                      table))%list).
Proof.
  revert pb hc. induction table as [|e table IH]; intros pb hc; cbn [fold_left filter].
  - cbn [map]. now rewrite !app_nil_r.
  - destruct (type_is (Size.type (snd e)) "paperback"); cbn [negb fst snd map];
      rewrite IH, <- app_assoc; reflexivity.
Qed.

(** The loop that builds the size dropdown splits any table by [type],
    keeping the order: the paperback group is the entries of type
    "paperback", the hardcover group all the others.  For the tables of the
    script the dropdown offers, after the empty placeholder, every key of
    the two tables once, as the option's value; the paperback group holds
    the names that start with "Paperback" and the hardcover group those
    that start with "Hardcover", which is what the change listener goes by,
    and no common size starts with either. *)
Theorem the_dropdown_lists_the_tables show :
  (forall table,
      kdpGroupsOf show table =
      (map (kdpChoice show)
           (filter (fun e => type_is (Size.type (snd e)) "paperback") table),
       map (kdpChoice show)
           (filter (fun e => negb (type_is (Size.type (snd e)) "paperback")) table)))
  /\ map Choice.value (bookSizeChoices show) = BOOK_SIZE_OPTIONS
  /\ NoDup (map Choice.value (bookSizeChoices show))
  /\ map Choice.value (fst (kdpGroups show))
     = filter (prefix "Paperback") (map fst KDP_SIZES)
  /\ map Choice.value (snd (kdpGroups show))
     = filter (prefix "Hardcover") (map fst KDP_SIZES)
  /\ filter (fun v => prefix "Paperback" v || prefix "Hardcover" v)
            (map fst COMMON_SIZES) = [].
Proof.
  split; [intros table; apply (kdpGroups_loop show table [] [])|].
  assert (V : map Choice.value (bookSizeChoices show) = BOOK_SIZE_OPTIONS)
    by (vm_compute; reflexivity).
  split; [exact V|]. split; [|repeat split; vm_compute; reflexivity].
  rewrite V.
  replace BOOK_SIZE_OPTIONS with (nodup string_dec BOOK_SIZE_OPTIONS)
    by (vm_compute; reflexivity).
  apply NoDup_nodup.
Qed.

(** ** [showCurrentMargins] after an apply *)

Lemma showCurrentMargins_quiet rt show fixed w :
  quiet rt ->
  showCurrentMargins rt show fixed w =
  (inl (Alert.mk "Page Settings"
          (pagePrompt show
             (fixed (pageWidth (body w) / POINTS_PER_INCH)%float)
             (fixed (pageHeight (body w) / POINTS_PER_INCH)%float)
             (fixed (marginTop (body w) / POINTS_PER_INCH)%float)
             (fixed (marginBottom (body w) / POINTS_PER_INCH)%float)
             (fixed (marginLeft (body w) / POINTS_PER_INCH)%float)
             (fixed (marginRight (body w) / POINTS_PER_INCH)%float)
             (body w))),
   record GetBody (record GetActiveDocument w)).
Proof.
  intros Q. unfold showCurrentMargins.
  rewrite bind_invoke, Q, bind_invoke, Q. reflexivity.
Qed.

(** Inches to points and back is not always the same number (7.81 and 7.44
    come back one unit in the last place off), but to two decimals it is,
    for every width and height of the two tables. *)
Lemma table_sizes_come_back show table name s :
  table = KDP_SIZES \/ table = COMMON_SIZES ->
  own table name = Some s ->
  toFixed2 show (Size.width s * POINTS_PER_INCH / POINTS_PER_INCH)
  = toFixed2 show (Size.width s)
  /\ toFixed2 show (Size.height s * POINTS_PER_INCH / POINTS_PER_INCH)
     = toFixed2 show (Size.height s).
Proof.
  intros T O. apply own_In in O. destruct T; subst table.
  - cbv [KDP_SIZES] in O.
    repeat (destruct O as [[= <- <-]|O]; [split; vm_compute; reflexivity|]).
    contradiction.
  - cbv [COMMON_SIZES] in O.
    repeat (destruct O as [[= <- <-]|O]; [split; vm_compute; reflexivity|]).
    contradiction.
Qed.

Lemma common_names_are_not_inherited name s :
  own COMMON_SIZES name = Some s -> inherited name = false.
Proof.
  intros O. apply own_In in O. cbv [COMMON_SIZES] in O.
  repeat (destruct O as [[= <- <-]|O]; [reflexivity|]).
  contradiction.
Qed.

(** Round trip: after a preset of either table has been applied with one
    of the four named margins, "Show Current Margins" reports the width and
    height the table stores for the preset, and the margins of the variant,
    written with two decimals, although the document holds points and the
    conversion back is a floating-point division. *)
Theorem shown_sizes_are_the_applied_sizes
        rt show name s bt pt it type tTop tBottom tLeft tRight w :
  quiet rt ->
  own KDP_SIZES name = Some s \/
    (own KDP_SIZES name = None /\ own COMMON_SIZES name = Some s) ->
  namedMarginTexts type = Some (tTop, tBottom, tLeft, tRight) ->
  let w' := snd (applyPageSettings rt name bt pt it (named type) w) in
  fst (showCurrentMargins rt show (toFixed2 show) w') =
  inl (Alert.mk "Page Settings"
         (pagePrompt show
            (toFixed2 show (Size.width s)) (toFixed2 show (Size.height s))
            tTop tBottom tLeft tRight (body w'))).
Proof.
  intros Q O N w'.
  assert (D : dimensionsOf name = inl (Num (Size.width s), Num (Size.height s))).
  { unfold dimensionsOf, getProperty.
    destruct O as [O | [K O]]; [now rewrite O|].
    now rewrite K, O, (common_names_are_not_inherited name s O). }
  assert (S : toFixed2 show (Size.width s * POINTS_PER_INCH / POINTS_PER_INCH)
              = toFixed2 show (Size.width s)
              /\ toFixed2 show (Size.height s * POINTS_PER_INCH / POINTS_PER_INCH)
                 = toFixed2 show (Size.height s)).
  { destruct O as [O | [_ O]];
      [apply (table_sizes_come_back show KDP_SIZES name s)
      |apply (table_sizes_come_back show COMMON_SIZES name s)]; auto. }
  destruct S as [SW SH].
  subst w'. rewrite (applyPageSettings_quiet rt name _ _ bt pt it _ w Q D).
  cbn [snd]. rewrite showCurrentMargins_quiet by assumption. cbn [fst].
  destruct (pagePlan_size rt name (Num (Size.width s)) (Num (Size.height s))
              bt pt it (named type) w) as (PW & PH & _).
  rewrite PW, PH. unfold js_mul, toNumber. rewrite SW, SH.
  unfold namedMarginTexts in N. unfold pagePlan, named.
  rewrite marginPlan_named.
  destruct (type =? "default"); [injection N as <- <- <- <-; reflexivity|].
  destruct (type =? "narrow"); [injection N as <- <- <- <-; reflexivity|].
  destruct (type =? "wide"); [injection N as <- <- <- <-; reflexivity|].
  destruct (type =? "mirrored"); [injection N as <- <- <- <-; reflexivity|].
  discriminate.
Qed.

Lemma shown_sizes_are_the_applied_sizes_witness :
  quiet (obliging "t")
  /\ own KDP_SIZES "Paperback - 5.06 x 7.81" = Some (paperback 5.06 7.81)
  /\ namedMarginTexts "mirrored" = Some ("1.00", "1.00", "1.25", "0.75")
  /\ fst (showCurrentMargins (obliging "t") (fun _ => "n") (toFixed2 (fun _ => "n"))
            (snd (applyPageSettings (obliging "t") "Paperback - 5.06 x 7.81"
                    "paperback" "white" "black" (named "mirrored") blank)))
     = inl (Alert.mk "Page Settings"
              (pagePrompt (fun _ => "n") "5.06" "7.81" "1.00" "1.00" "1.25" "0.75"
                          (mkBody (5.06 * 72) (7.81 * 72) COLOR_WHITE 72 72 90 54))).
Proof.
  split; [apply quiet_obliging|]. split; [reflexivity|]. split; [reflexivity|].
  exact (shown_sizes_are_the_applied_sizes
           (obliging "t") (fun _ => "n") "Paperback - 5.06 x 7.81"
           (paperback 5.06 7.81) "paperback" "white" "black" "mirrored"
           "1.00" "1.00" "1.25" "0.75" blank
           (quiet_obliging "t") (or_introl eq_refl) eq_refl).
Defined.

(** ** Sample values *)

(** [toFixed(2)] rounds the number the binary64 value denotes: 1.005 and
    1.255 lie just below the half, 0.005 just above. *)
Example toFixed2_samples :
  map (toFixed2 (fun _ => "1e+21"))
      [1.005; 1.255; 0.005; 8.5; 11.69; 0; -0; -1.5; -0.001; 123456.789; 1e21]%float
  = ["1.00"; "1.25"; "0.01"; "8.50"; "11.69"; "0.00"; "0.00"; "-1.50"; "-0.00";
     "123456.79"; "1e+21"].
Proof. vm_compute. reflexivity. Qed.

(** Inches to points and back is not the identity on binary64 values. *)
Example points_and_back_is_not_exact :
  (7.81 * POINTS_PER_INCH / POINTS_PER_INCH <? 7.81)%float = true
  /\ (7.44 <? 7.44 * POINTS_PER_INCH / POINTS_PER_INCH)%float = true
  /\ (5.06 * POINTS_PER_INCH / POINTS_PER_INCH =? 5.06)%float = true.
Proof. repeat split. Qed.

(** ** Runs on arguments of the documented types *)

(** The statements of this part are about calls with a String size name
    and Number dimensions, the types the script documents and its dialog
    sends.  The return expression of [applyCustomPageSize] is where another
    primitive makes a difference. *)
Lemma customReturn_numbers show fixed w h bt pt it :
  customReturn fixed (PNumber w) (PNumber h) bt pt it
  = inl (message show fixed (CustomPageSizeSet w h bt pt it)).
Proof. reflexivity. Qed.

Lemma customReturn_throws fixed a b bt pt it :
  (exists text, customReturn fixed a b bt pt it = inr text)
  <-> ~ (exists x y, a = PNumber x /\ b = PNumber y).
Proof.
  split.
  - intros [text E] (x & y & -> & ->). discriminate E.
  - intros N. destruct a as [| |c|x|s]; try (eexists; reflexivity).
    destruct b as [| |c|y|s]; try (eexists; reflexivity).
    exfalso. apply N. now exists x, y.
Qed.

(** A pair the test lets through is a pair of finite Numbers, or makes the
    return expression throw. *)
Lemma passing_non_numbers_throw parse fixed a b bt pt it :
  rejectsDimensions parse a b = false ->
  (finiteNumber a && finiteNumber b = false
   <-> exists text, customReturn fixed a b bt pt it = inr text).
Proof.
  intros R.
  destruct a as [| |c|x|s];
    try (split; [intros _; eexists|]; reflexivity).
  destruct b as [| |c|y|s];
    try (split; [intros _; eexists; reflexivity | intros _; apply andb_false_r]).
  rewrite rejects_numbers, negb_false_iff in R.
  apply acceptable_spec in R. destruct R as (Fx & Fy & _).
  cbn [finiteNumber]. rewrite Fx, Fy. split; [discriminate|].
  intros [text E]. discriminate E.
Qed.

Lemma dimensionsOf_found sizeName wd ht :
  dimensionsOf sizeName = inl (wd, ht) ->
  (exists s, tableEntry sizeName = Some s
             /\ wd = Num (Size.width s) /\ ht = Num (Size.height s))
  \/ (absent sizeName /\ inherited sizeName = true
      /\ wd = Undefined /\ ht = Undefined).
Proof.
  unfold dimensionsOf, getProperty, tableEntry, absent.
  destruct (own KDP_SIZES sizeName) as [s|] eqn:K.
  - intros [= <- <-]. left. now exists s.
  - destruct (own COMMON_SIZES sizeName) as [s|] eqn:C.
    + rewrite (common_names_are_not_inherited _ _ C).
      intros [= <- <-]. left. now exists s.
    + destruct (inherited sizeName); [|discriminate].
      intros [= <- <-]. right. repeat split.
Qed.

(** X1: every run of the two server functions on a String size name and
    Number dimensions, whatever the host does: the calls of the plan are
    made in order; either all of them take effect and the reply is the
    success message, or the first call that throws ends the run, the calls
    before it keep their effect, the error is logged once and returned.
    The success message of [applyCustomPageSize] is what its return
    expression gives on two Numbers; on any other primitive that expression
    throws, so these two endings are all there are for Numbers only. *)
Theorem a_run_is_a_prefix_of_its_plan rt sizeName wi hi bt pt it ms w :
  let ended fn success plan run :=
    run = (success, effects plan w)
    \/ exists made c rest text,
         plan = (made ++ c :: rest)%list
         /\ throws rt (effects made w) c = Some text
         /\ run = (Caught (HostFailure text),
                   record (LoggerLog ("Error in " ++ fn ++ ": " ++ text))
                          (record c (effects made w))) in
  match dimensionsOf sizeName with
  | inl (wd, ht) =>
      ended "applyPageSettings" (PageSizeSet sizeName wd ht bt pt it)
            (pagePlan rt sizeName wd ht bt pt it ms)
            (applyPageSettings rt sizeName bt pt it ms w)
  | inr e =>
      applyPageSettings rt sizeName bt pt it ms w =
      (Caught e,
       record (LoggerLog ("Error in applyPageSettings: " ++ errorToString e)) w)
  end
  /\ (if acceptable wi hi
      then ended "applyCustomPageSize" (CustomPageSizeSet wi hi bt pt it)
                 (pagePlan rt "Custom" (Num wi) (Num hi) bt pt it ms)
                 (applyCustomPageSize rt wi hi bt pt it ms w)
      else applyCustomPageSize rt wi hi bt pt it ms w = (InvalidDimensions, w))
  /\ (forall show fixed,
         customReturn fixed (PNumber wi) (PNumber hi) bt pt it
         = inl (message show fixed (CustomPageSizeSet wi hi bt pt it)))
  /\ (forall fixed a b,
         (exists text, customReturn fixed a b bt pt it = inr text)
         <-> ~ (exists x y, a = PNumber x /\ b = PNumber y)).
Proof.
  intros ended.
  assert (E : forall fn success plan,
             ended fn success plan (conclude fn success (invokeAll rt plan w))).
  { intros fn success plan. unfold ended.
    destruct (invokeAll_cases rt plan w)
      as [-> | (made & c & rest & text & P & T & ->)].
    - left. reflexivity.
    - right. exists made, c, rest, text. repeat split; assumption. }
  split; [|split; [|split]].
  - rewrite applyPageSettings_run.
    destruct (dimensionsOf sizeName) as [[wd ht]|e]; [apply E | reflexivity].
  - rewrite applyCustomPageSize_run, validation_test.
    destruct (acceptable wi hi); [apply E | reflexivity].
  - intros show fixed. apply customReturn_numbers.
  - intros fixed a b. apply customReturn_throws.
Qed.

(** X2: on a String size name and Number dimensions, a reply that reports
    a failure never comes with a change of the stored settings: whenever
    [applyPageSettings] or [applyCustomPageSize] returns the validation
    message or a caught error, the document properties are the ones it
    started with (the document itself may have been changed).  Numbers it
    must be: any other pair of primitives the test lets through makes the
    return expression throw, which in the script comes after
    [saveDocumentSettings]. *)
Theorem a_failed_apply_stores_nothing rt w :
  (forall sizeName bt pt it ms,
      let r := applyPageSettings rt sizeName bt pt it ms w in
      failed (fst r) = true -> properties (snd r) = properties w)
  /\ (forall wi hi bt pt it ms,
         let r := applyCustomPageSize rt wi hi bt pt it ms w in
         failed (fst r) = true -> properties (snd r) = properties w)
  /\ (forall parse fixed a b bt pt it,
         rejectsDimensions parse a b = false ->
         (finiteNumber a && finiteNumber b = false
          <-> exists text, customReturn fixed a b bt pt it = inr text)).
Proof.
  destruct (served_properties rt w) as [P C]. split; [|split].
  - intros sizeName bt pt it ms r F.
    destruct (P sizeName bt pt it ms) as [[N _]|[_ E]]; [|exact E].
    subst r. congruence.
  - intros wi hi bt pt it ms r F.
    destruct (C wi hi bt pt it ms) as [[N _]|[_ E]]; [|exact E].
    subst r. congruence.
  - intros parse fixed a b bt pt it. apply passing_non_numbers_throw.
Qed.

(** X5: what the caller learns from the text alone, on a String size name
    and Number dimensions, whatever the way numbers are written.  A message
    that starts with "Error: " means the stored settings are untouched.  Any
    other message means every call of the plan took effect: the colour and
    the margins are set, the settings are stored, and the page size set is
    that of the table entry the name selects, or, for a name no table owns
    but every object inherits (such as "toString"), undefined by undefined,
    NaN points; for custom dimensions it is the two numbers, which passed
    the validation. *)
Theorem the_message_tells_whether_it_worked show fixed rt w :
  (forall sizeName bt pt it ms,
      let r := applyPageSettings rt sizeName bt pt it ms w in
      if prefix "Error: " (message show fixed (fst r))
      then properties (snd r) = properties w
      else exists wd ht,
          snd r = effects (pagePlan rt sizeName wd ht bt pt it ms) w
          /\ ((exists s, tableEntry sizeName = Some s
                         /\ wd = Num (Size.width s) /\ ht = Num (Size.height s))
              \/ (absent sizeName /\ inherited sizeName = true
                  /\ wd = Undefined /\ ht = Undefined)))
  /\ (forall wi hi bt pt it ms,
         let r := applyCustomPageSize rt wi hi bt pt it ms w in
         if prefix "Error: " (message show fixed (fst r))
         then properties (snd r) = properties w
         else policy wi hi
              /\ message show fixed (fst r)
                 = message show fixed (CustomPageSizeSet wi hi bt pt it)
              /\ customReturn fixed (PNumber wi) (PNumber hi) bt pt it
                 = inl (message show fixed (fst r))
              /\ snd r = effects (pagePlan rt "Custom" (Num wi) (Num hi)
                                           bt pt it ms) w).
Proof.
  split.
  - intros sizeName bt pt it ms r. subst r. rewrite failed_by_prefix.
    rewrite applyPageSettings_run.
    destruct (dimensionsOf sizeName) as [[wd ht]|e] eqn:D; [|reflexivity].
    destruct (invokeAll_cases rt (pagePlan rt sizeName wd ht bt pt it ms) w)
      as [-> | (made & c & rest & text & P & _ & ->)]; cbn [conclude fst snd failed].
    + exists wd, ht. split; [reflexivity|]. now apply dimensionsOf_found.
    + cbn [record properties].
      exact (properties_before_the_end _ _ _ _ _ _ _ _ _ _ _ _ P).
  - intros wi hi bt pt it ms r. subst r. rewrite failed_by_prefix.
    rewrite applyCustomPageSize_run, validation_test.
    destruct (acceptable wi hi) eqn:A; [|reflexivity]. cbn [negb].
    destruct (invokeAll_cases rt
                (pagePlan rt "Custom" (Num wi) (Num hi) bt pt it ms) w)
      as [-> | (made & c & rest & text & P & _ & ->)]; cbn [conclude fst snd failed].
    + split; [now apply acceptable_policy|]. repeat split.
    + cbn [record properties].
      exact (properties_before_the_end _ _ _ _ _ _ _ _ _ _ _ _ P).
Qed.
